(** * Rendezvous: the device-linking orchestrator of src/utils/Rendezvous.ts

    A shallow embedding of the [Rendezvous] class.  The class is a sequence of
    asynchronous methods over one mutable session object ([this]) that talk to
    injected capabilities: the rendezvous channel, the Matrix client and its
    crypto store, the login helpers and the timer.  A method is embedded as a
    program of a small free monad [Prog]: every capability call is a node
    whose continuation receives the answer, [this] is read and assigned
    through explicit nodes, and [throw] ends the program.  [run] executes a
    program against an arbitrary environment (a handler over a world of any
    type) and returns the completion, the final session, the final world and
    the trace of everything the method did; an awaited capability may reject,
    and the rejection propagates as it does through [await].

    Conventions.  A [string | undefined] is an [option string], and the
    guards of the class are JavaScript truthiness and [===] on it.  An object
    used as a map is the list of its properties in the order of
    [Object.keys]; a list stands for an object when its key ids are pairwise
    distinct.  A read [o[k]] finds the own property [k] or else the member
    of that name which every object inherits from [Object.prototype].  The
    client's [getUserId()] and [baseUrl] are read off the
    client object, whose optional [crypto] member is there or not; reading
    through a client or a crypto member that is not there is the engine's
    TypeError.  [logger.info] only leaves its message in the trace.  The
    methods are embedded in the order of the source, one line of the source
    per line of the program where the notation allows;
    [userCancelled], which starts [cancel] without awaiting it, is left
    out. *)

From Stdlib Require Import String Ascii List ZArith Bool Lia DecimalString.
Import ListNotations.
Local Open Scope string_scope.

Set Implicit Arguments.

(** ** JavaScript values the class relies on *)

Module JS.

(** Truthiness of a [string | undefined]: [undefined] and the empty
    string are falsy. *)
Definition truthy (v : option string) : bool :=
  match v with
  | Some s => negb (String.eqb s "")
  | None => false
  end.

(** [a === b] on [string | undefined]. *)
Definition strict_eq (a b : option string) : bool :=
  match a, b with
  | Some x, Some y => String.eqb x y
  | None, None => true
  | _, _ => false
  end.

(** A [string | undefined] inside a template literal or a [+]. *)
Definition to_string (v : option string) : string :=
  match v with
  | Some s => s
  | None => "undefined"
  end.

(** A non-negative integer inside a template literal. *)
Definition number (n : nat) : string :=
  NilZero.string_of_uint (Nat.to_uint n).

(** An object with string keys, as the list of its own properties in the
    order [Object.keys] enumerates them. *)
Definition Record (V : Type) : Type := list (string * V).

(** The own property [k] of [o], if [o] has one. *)
Fixpoint get {V} (o : Record V) (k : string) : option V :=
  match o with
  | [] => None
  | (k', v) :: o' => if String.eqb k' k then Some v else get o' k
  end.

Definition Object_keys {V} (o : Record V) : list string := map fst o.
Definition Object_values {V} (o : Record V) : list V := map snd o.

(** The names of the members every object inherits from
    [Object.prototype]. *)
Definition Object_prototype : list string :=
  ["constructor"; "__defineGetter__"; "__defineSetter__"; "hasOwnProperty";
   "__lookupGetter__"; "__lookupSetter__"; "isPrototypeOf";
   "propertyIsEnumerable"; "toString"; "valueOf"; "__proto__";
   "toLocaleString"].

Definition inherited (k : string) : bool :=
  existsb (String.eqb k) Object_prototype.

(** What [o[k]] reads: the own property [k]; failing that, the member of
    [Object.prototype] of that name; failing that, [undefined]. *)
Inductive Member (V : Type) : Type :=
| Own (v : V)
| Inherited (name : string)
| Undefined.
Arguments Inherited {V} name.
Arguments Undefined {V}.

(** [o[k]]. *)
Definition member {V} (o : Record V) (k : string) : Member V :=
  match get o k with
  | Some v => Own v
  | None => if inherited k then Inherited k else Undefined
  end.
Arguments member {V} o k : simpl never.

(** [a === b] on what two reads of string-valued objects gave; the
    inherited members are one object per name. *)
Definition member_strict_eq (a b : Member string) : bool :=
  match a, b with
  | Own x, Own y => String.eqb x y
  | Inherited n, Inherited m => String.eqb n m
  | Undefined, Undefined => true
  | _, _ => false
  end.

(** A member of [Object.prototype] inside a template literal: the text of a
    built-in function as V8 prints it (other engines break the line inside
    the braces), the prototype itself under [__proto__]. *)
Definition prototype_text (name : string) : string :=
  if String.eqb name "__proto__" then "[object Object]"
  else "function "
         ++ (if String.eqb name "constructor" then "Object" else name)
         ++ "() { [native code] }".

(** What a read of a string-valued object gave, inside a template
    literal. *)
Definition template (m : Member string) : string :=
  match m with
  | Own s => s
  | Inherited name => prototype_text name
  | Undefined => "undefined"
  end.

(** [m.keys] for a member [m] of [Object.prototype]: there is none, except
    under [constructor], where it is [Object.keys] itself, an object without
    an enumerable property of its own. *)
Definition inherited_keys (name : string) : option (Record string) :=
  if String.eqb name "constructor" then Some [] else None.

(** What a [throw] carries: [new Error(message)], or the engine's TypeError
    for a member read on [undefined] (named by the member) and for
    [Object.keys(undefined)]. *)
Inductive Thrown : Type :=
| Error (message : string)
| TypeError (member : string).

(** How a call ends. *)
Inductive Completion (A : Type) : Type :=
| Returned (a : A)
| Threw (e : Thrown).
Arguments Threw {A} e.

Definition map_completion {A B} (f : A -> B) (c : Completion A) : Completion B :=
  match c with
  | Returned a => Returned (f a)
  | Threw e => Threw e
  end.

End JS.
Import JS.

(** ** Data model *)

(** [RendezvousCancellationReason] of the SDK: the two members the class
    names, and the remaining ones by their name. *)
Inductive RendezvousCancellationReason : Type :=
| UserDeclined
| UserCancelled
| OtherReason (name : string).

(** The loosely typed object exchanged over the channel: every field may be
    absent. *)
Module Payload.
Record t : Type := mk {
  user : option string;
  homeserver : option string;
  login_token : option string;
  outcome : option string;
  deviceId : option string;
  deviceKeys : option (JS.Record string)
}.
End Payload.

(** [DeviceInfo] and the raw stored [IDevice]: the class reads [keys] only. *)
Module DeviceInfo.
Record t : Type := mk { keys : JS.Record string }.
End DeviceInfo.

(** [IMatrixClientCreds], the fields the class reads. *)
Module IMatrixClientCreds.
Record t : Type := mk {
  homeserverUrl : string;
  userId : string;
  deviceId : option string;
  accessToken : string
}.
End IMatrixClientCreds.

(** The [MatrixClient] object: its accessor [getUserId()], its [baseUrl], and
    whether the optional [crypto] member is there. *)
Module MatrixClient.
Record t : Type := mk {
  getUserId : string;
  baseUrl : string;
  crypto : bool
}.
End MatrixClient.

(** The answer of [POST /login/token]. *)
Module LoginToken.
Record t : Type := mk { login_token : string; expires_in : Z }.
End LoginToken.

(** The fields of a [Rendezvous] instance.  The channel is the environment;
    the two observers are recorded by whether they are set. *)
Module Rendezvous.
Record t : Type := mk {
  cli : option MatrixClient.t;
  user : option string;
  newDeviceId : option string;
  newDeviceKeys : option (JS.Record string);
  code : option string;
  onConfirmationDigits : bool;
  onCancelled : bool
}.

Definition set_code (v : option string) (s : t) : t :=
  mk (cli s) (user s) (newDeviceId s) (newDeviceKeys s) v
     (onConfirmationDigits s) (onCancelled s).
Definition set_newDeviceId (v : option string) (s : t) : t :=
  mk (cli s) (user s) v (newDeviceKeys s) (code s)
     (onConfirmationDigits s) (onCancelled s).
Definition set_newDeviceKeys (v : option (JS.Record string)) (s : t) : t :=
  mk (cli s) (user s) (newDeviceId s) v (code s)
     (onConfirmationDigits s) (onCancelled s).

(** [new Rendezvous(channel, cli)]. *)
Definition constructor (cli : option MatrixClient.t) : t :=
  mk cli None None None None false false.
End Rendezvous.

(** The test of the key-match loop, [deviceInfo.keys[keyId] !==
    this.newDeviceKeys[keyId]], as a predicate on key ids.  The two objects
    inherit the same members, so their own properties decide it. *)
Definition differing (stored reported : JS.Record string) (keyId : string) : bool :=
  negb (strict_eq (get stored keyId) (get reported keyId)).

(** The values of the calls that resolved, in order. *)
Fixpoint resolved {A} (answers : list (Completion A)) : list A :=
  match answers with
  | [] => []
  | Returned a :: rest => a :: resolved rest
  | Threw _ :: rest => resolved rest
  end.

Section Orchestrator.

(** Types of the SDK that the class only passes along: the code object of
    the channel with its JSON serialisation, and [CrossSigningInfo]. *)
Variable RendezvousCode : Type.
Variable JSON_stringify : RendezvousCode -> string.
Variable CrossSigningInfo : Type.

(** [DeviceInfo | CrossSigningInfo], what [setDeviceVerification] yields. *)
Inductive VerificationRecord : Type :=
| OfDevice (d : DeviceInfo.t)
| OfCrossSigning (c : CrossSigningInfo).

(** ** Capabilities

    One constructor per external call of the class, indexed by the type of
    the answer. *)
Inductive Capability : Type -> Type :=
| channel_generateCode : Capability RendezvousCode
| channel_connect : Capability string
| channel_send (data : Payload.t) : Capability unit
| channel_receive : Capability (option Payload.t)
| channel_transport_cancel (reason : RendezvousCancellationReason) : Capability unit
| call_onConfirmationDigits (digits : string) : Capability unit
| http_authedRequest (method path : string) : Capability LoginToken.t
| sendLoginRequest (hsUrl : string) (deviceId : option string)
                   (loginType token : string) : Capability IMatrixClientCreds.t
| setLoggedIn (creds : IMatrixClientCreds.t) : Capability unit
| MatrixClientPeg_get : Capability (option MatrixClient.t)
| getRawStoredDevicesForUser (userId : string)
    : Capability (option (JS.Record DeviceInfo.t))
| getStoredDevice (userId : string) (deviceId : option string)
    : Capability (option DeviceInfo.t)
| setDeviceVerification (userId : string) (deviceId : option string)
                        (verified blocked crossSigned : bool)
    : Capability VerificationRecord
| sleep (ms : Z) : Capability unit.

(** ** Programs *)

Inductive Prog (A : Type) : Type :=
| Ret (a : A)
| Throw (e : Thrown)
| Await {X : Type} (c : Capability X) (k : X -> Prog A)
| Logger_info (message : string) (k : Prog A)
| This (k : Rendezvous.t -> Prog A)
| Assign (f : Rendezvous.t -> Rendezvous.t) (k : Prog A).
Arguments Throw {A} e.
Arguments Logger_info {A} message k.
Arguments This {A} k.
Arguments Assign {A} f k.

Fixpoint bind {A B} (p : Prog A) (f : A -> Prog B) : Prog B :=
  match p with
  | Ret a => f a
  | Throw e => Throw e
  | Await c k => Await c (fun x => bind (k x) f)
  | Logger_info m k => Logger_info m (bind k f)
  | This k => This (fun s => bind (k s) f)
  | Assign g k => Assign g (bind k f)
  end.

Definition await {X} (c : Capability X) : Prog X := Await c (@Ret X).
Definition this : Prog Rendezvous.t := This (@Ret Rendezvous.t).
Definition assign (f : Rendezvous.t -> Rendezvous.t) : Prog unit :=
  Assign f (Ret tt).
Definition logger_info (message : string) : Prog unit :=
  Logger_info message (Ret tt).

Notation "x <- p ;; q" := (bind p (fun x => q))
  (at level 61, p at next level, right associativity).
Notation "p ;; q" := (bind p (fun _ => q))
  (at level 61, right associativity).

(** ** Running a program *)

(** What a method did, in order. *)
Inductive Entry : Type :=
| Called {X : Type} (c : Capability X) (r : Completion X)
| Logged (message : string).

Record Run (W A : Type) : Type := mkRun {
  completion : Completion A;
  session : Rendezvous.t;
  world : W;
  trace : list Entry
}.

(** The run [r] after the entries [pre]. *)
Definition after {W A} (pre : list Entry) (r : Run W A) : Run W A :=
  mkRun (completion r) (session r) (world r) (pre ++ trace r).

(** The run [r] with [f] applied to what it returned. *)
Definition map_run {W A B} (f : A -> B) (r : Run W A) : Run W B :=
  mkRun (map_completion f (completion r)) (session r) (world r) (trace r).

(** An environment answers every capability call, resolving or rejecting,
    and moves to its next world. *)
Definition Env (W : Type) : Type :=
  forall X, Capability X -> W -> Completion X * W.

Section Run.
Variable W : Type.
Variable env : Env W.

Fixpoint run {A} (p : Prog A) (s : Rendezvous.t) (w : W) : Run W A :=
  match p with
  | Ret a => mkRun (Returned a) s w []
  | Throw e => mkRun (Threw e) s w []
  | Await c k =>
      match env c w with
      | (Returned x, w') => after [Called c (Returned x)] (run (k x) s w')
      | (Threw e, w') => mkRun (Threw e) s w' [Called c (Threw e)]
      end
  | Logger_info m k => after [Logged m] (run k s w)
  | This k => run (k s) s w
  | Assign f k => run k (f s) w
  end.
End Run.

(** ** The methods *)

(** [for (const x of xs) body]; the bodies of the class leave the loop only
    by throwing. *)
Fixpoint for_of {X} (xs : list X) (body : X -> Prog unit) : Prog unit :=
  match xs with
  | [] => Ret tt
  | x :: xs' => body x ;; for_of xs' body
  end.

(** [generateCode()], lines 41-47. *)
Definition generateCode : Prog unit :=
  self <- this ;;
  if truthy (Rendezvous.code self) then Ret tt
  else
    c <- await channel_generateCode ;;
    assign (Rendezvous.set_code (Some (JSON_stringify c))).

(** [cancel(reason)], lines 218-220. *)
Definition cancel (reason : RendezvousCancellationReason) : Prog unit :=
  await (channel_transport_cancel reason).

(** [if (this.onConfirmationDigits) this.onConfirmationDigits(digits)]. *)
Definition surface_digits (digits : string) : Prog unit :=
  self <- this ;;
  if Rendezvous.onConfirmationDigits self
  then await (call_onConfirmationDigits digits)
  else Ret tt.

(** [completeOnNewDevice()], lines 49-116.  Past the two guards
    [homeserver] and [login_token] are strings, so [to_string] is the
    identity on them.  [devices[deviceId]] is truthy when it is a stored
    device and when it is a member that [devices] inherits; [device.keys]
    is then read off whichever it is. *)
Definition completeOnNewDevice : Prog (option IMatrixClientCreds.t) :=
  digits <- await channel_connect ;;
  surface_digits digits ;;
  logger_info "Waiting for login_token" ;;
  _res <- await channel_receive ;;
  match _res with
  | None => Ret None
  | Some _res =>
      let homeserver := Payload.homeserver _res in
      let login_token := Payload.login_token _res in
      let outcome := Payload.outcome _res in
      if strict_eq outcome (Some "declined") then
        logger_info "Other device declined the linking" ;;
        cancel UserDeclined ;;
        Ret None
      else if negb (truthy homeserver) then
        Throw (Error "No homeserver returned")
      else if negb (truthy login_token) then
        Throw (Error "No login token returned")
      else
        login <- await (sendLoginRequest (to_string homeserver) None
                          "m.login.token" (to_string login_token)) ;;
        await (setLoggedIn login) ;;
        let deviceId := IMatrixClientCreds.deviceId login in
        let userId := IMatrixClientCreds.userId login in
        client <- await MatrixClientPeg_get ;;
        match client with
        | None => Throw (TypeError "crypto")
        | Some client =>
            deviceKeys <-
              (if MatrixClient.crypto client then
                 devices <- await (getRawStoredDevicesForUser userId) ;;
                 match devices with
                 | None =>
                     Throw (Error ("Unknown device " ++ userId ++ ":"
                                     ++ to_string deviceId))
                 | Some devices =>
                     match member devices (to_string deviceId) with
                     | Undefined =>
                         Throw (Error ("Unknown device " ++ userId ++ ":"
                                         ++ to_string deviceId))
                     | Own device => Ret (Some (DeviceInfo.keys device))
                     | Inherited name => Ret (inherited_keys name)
                     end
                 end
               else
                 logger_info "No crypto module, so not cross-signing" ;;
                 Ret None) ;;
            await (channel_send
                     (Payload.mk None None None (Some "success")
                                 deviceId deviceKeys)) ;;
            Ret (Some login)
        end
  end.

(** [startOnExistingDevice()], lines 118-126. *)
Definition startOnExistingDevice : Prog bool :=
  digits <- await channel_connect ;;
  surface_digits digits ;;
  Ret true.

(** [declineLoginOnExistingDevice()], lines 128-131. *)
Definition declineLoginOnExistingDevice : Prog unit :=
  logger_info "User declined linking" ;;
  await (channel_send
           (Payload.mk None None None (Some "declined") None None)).

(** [this.cli.member]: a TypeError when the client is not there. *)
Definition this_cli (member : string) : Prog MatrixClient.t :=
  self <- this ;;
  match Rendezvous.cli self with
  | Some cli => Ret cli
  | None => Throw (TypeError member)
  end.

(** [confirmLoginOnExistingDevice()], lines 133-160. *)
Definition confirmLoginOnExistingDevice : Prog (option string) :=
  logger_info "Requesting login token" ;;
  this_cli "http" ;;
  response <- await (http_authedRequest "POST" "/login/token") ;;
  let login_token := LoginToken.login_token response in
  cli <- this_cli "getUserId" ;;
  await (channel_send
           (Payload.mk (Some (MatrixClient.getUserId cli))
                       (Some (MatrixClient.baseUrl cli))
                       (Some login_token) None None None)) ;;
  logger_info "Waiting for outcome" ;;
  res <- await channel_receive ;;
  match res with
  | None => Ret None
  | Some res =>
      let outcome := Payload.outcome res in
      let deviceId := Payload.deviceId res in
      let deviceKeys := Payload.deviceKeys res in
      if negb (strict_eq outcome (Some "success")) then
        Throw (Error "Linking failed")
      else
        assign (Rendezvous.set_newDeviceId deviceId) ;;
        assign (Rendezvous.set_newDeviceKeys deviceKeys) ;;
        Ret deviceId
  end.

(** One round of the loop of [checkAndCrossSignDevice], lines 170-173. *)
Definition check_key (deviceInfo : DeviceInfo.t) (keyId : string) : Prog unit :=
  self <- this ;;
  match Rendezvous.newDeviceKeys self with
  | None => Throw (TypeError keyId)
  | Some newDeviceKeys =>
      let stored := member (DeviceInfo.keys deviceInfo) keyId in
      let reported := member newDeviceKeys keyId in
      logger_info ("Checking " ++ keyId ++ ": " ++ template stored
                     ++ " vs " ++ template reported) ;;
      if negb (member_strict_eq stored reported) then
        Throw (Error ("New device has different keys than expected for "
                        ++ keyId))
      else Ret tt
  end.

(** [checkAndCrossSignDevice(deviceInfo)], lines 162-176. *)
Definition checkAndCrossSignDevice (deviceInfo : DeviceInfo.t)
  : Prog VerificationRecord :=
  let expected := length (Object_keys (DeviceInfo.keys deviceInfo)) in
  self <- this ;;
  match Rendezvous.newDeviceKeys self with
  | None => Throw (TypeError "Object.keys")
  | Some newDeviceKeys =>
      let actual := length (Object_keys newDeviceKeys) in
      if negb (Nat.eqb expected actual) then
        Throw (Error ("New device has different keys than expected: "
                        ++ number expected ++ " vs " ++ number actual))
      else
        for_of (Object_keys newDeviceKeys) (check_key deviceInfo) ;;
        cli <- this_cli "crypto" ;;
        if negb (MatrixClient.crypto cli) then
          Throw (TypeError "setDeviceVerification")
        else
          self <- this ;;
          await (setDeviceVerification (MatrixClient.getUserId cli)
                   (Rendezvous.newDeviceId self) true false true)
  end.

(** [cli.crypto.getStoredDevice(cli.getUserId(), this.newDeviceId)], lines
    191 and 204, for the [const cli = this.cli] of line 188. *)
Definition stored_device (cli : option MatrixClient.t)
  : Prog (option DeviceInfo.t) :=
  match cli with
  | None => Throw (TypeError "crypto")
  | Some cli =>
      if negb (MatrixClient.crypto cli) then
        Throw (TypeError "getStoredDevice")
      else
        self <- this ;;
        await (getStoredDevice (MatrixClient.getUserId cli)
                 (Rendezvous.newDeviceId self))
  end.

(** [crossSign(timeout = 10 * 1000)], lines 178-212; [None] is the call
    without an argument. *)
Definition crossSign (timeout : option Z)
  : Prog (option VerificationRecord) :=
  let timeout :=
    match timeout with Some ms => ms | None => (10 * 1000)%Z end in
  self <- this ;;
  if negb (truthy (Rendezvous.newDeviceId self)) then
    Throw (Error "No new device to sign")
  else
    match Rendezvous.newDeviceKeys self with
    | None => logger_info "No new device keys to sign" ;; Ret None
    | Some newDeviceKeys =>
        if Nat.eqb (length (Object_values newDeviceKeys)) 0 then
          logger_info "No new device keys to sign" ;; Ret None
        else
          let cli := Rendezvous.cli self in
          deviceInfo <- stored_device cli ;;
          match deviceInfo with
          | Some deviceInfo =>
              record <- checkAndCrossSignDevice deviceInfo ;;
              Ret (Some record)
          | None =>
              logger_info "New device is not online" ;;
              await (sleep timeout) ;;
              logger_info "Going to wait for new device to be online" ;;
              deviceInfo <- stored_device cli ;;
              match deviceInfo with
              | Some deviceInfo =>
                  record <- checkAndCrossSignDevice deviceInfo ;;
                  Ret (Some record)
              | None => Throw (Error "Device not online within timeout")
              end
          end
    end.

(** ** Reading a trace *)

Fixpoint collect {B} (f : Entry -> option B) (t : list Entry) : list B :=
  match t with
  | [] => []
  | e :: t' =>
      match f e with
      | Some b => b :: collect f t'
      | None => collect f t'
      end
  end.

(** Each reading below keeps the entries of one capability. *)

Definition sent (e : Entry) : option Payload.t :=
  match e with
  | Called c _ => match c with channel_send data => Some data | _ => None end
  | Logged _ => None
  end.

Definition received (e : Entry) : option (Completion (option Payload.t)) :=
  match e with
  | Called c r =>
      match c in Capability X
            return Completion X -> option (Completion (option Payload.t)) with
      | channel_receive => fun r => Some r
      | _ => fun _ => None
      end r
  | Logged _ => None
  end.

Definition cancelled (e : Entry)
  : option (RendezvousCancellationReason * Completion unit) :=
  match e with
  | Called c r =>
      match c in Capability X
            return Completion X ->
                   option (RendezvousCancellationReason * Completion unit) with
      | channel_transport_cancel reason => fun r => Some (reason, r)
      | _ => fun _ => None
      end r
  | Logged _ => None
  end.

Definition login_requested (e : Entry)
  : option (string * option string * string * string) :=
  match e with
  | Called c _ =>
      match c with
      | sendLoginRequest hs d ty tok => Some (hs, d, ty, tok)
      | _ => None
      end
  | Logged _ => None
  end.

Definition installed (e : Entry) : option IMatrixClientCreds.t :=
  match e with
  | Called c _ => match c with setLoggedIn creds => Some creds | _ => None end
  | Logged _ => None
  end.

Definition generated (e : Entry) : option (Completion RendezvousCode) :=
  match e with
  | Called c r =>
      match c in Capability X
            return Completion X -> option (Completion RendezvousCode) with
      | channel_generateCode => fun r => Some r
      | _ => fun _ => None
      end r
  | Logged _ => None
  end.

Definition token_requested (e : Entry) : option (Completion LoginToken.t) :=
  match e with
  | Called c r =>
      match c in Capability X
            return Completion X -> option (Completion LoginToken.t) with
      | http_authedRequest _ _ => fun r => Some r
      | _ => fun _ => None
      end r
  | Logged _ => None
  end.

Definition looked_up (e : Entry) : option (Completion (option DeviceInfo.t)) :=
  match e with
  | Called c r =>
      match c in Capability X
            return Completion X -> option (Completion (option DeviceInfo.t)) with
      | getStoredDevice _ _ => fun r => Some r
      | _ => fun _ => None
      end r
  | Logged _ => None
  end.

Definition looked_up_for (e : Entry) : option (string * option string) :=
  match e with
  | Called c _ =>
      match c with getStoredDevice u d => Some (u, d) | _ => None end
  | Logged _ => None
  end.

Definition slept (e : Entry) : option (Z * Completion unit) :=
  match e with
  | Called c r =>
      match c in Capability X
            return Completion X -> option (Z * Completion unit) with
      | sleep ms => fun r => Some (ms, r)
      | _ => fun _ => None
      end r
  | Logged _ => None
  end.

Definition verified (e : Entry)
  : option (string * option string * bool * bool * bool
            * Completion VerificationRecord) :=
  match e with
  | Called c r =>
      match c in Capability X
            return Completion X ->
                   option (string * option string * bool * bool * bool
                           * Completion VerificationRecord) with
      | setDeviceVerification u d v b x => fun r => Some (u, d, v, b, x, r)
      | _ => fun _ => None
      end r
  | Logged _ => None
  end.

(** The payloads handed to [channel.send]. *)
Definition sends := collect sent.
(** The answers of [channel.receive]. *)
Definition receives := collect received.
(** The reasons handed to the transport's [cancel], each with how the call
    ended. *)
Definition cancels := collect cancelled.
(** The calls of [sendLoginRequest]: homeserver, device id, type, token. *)
Definition logins := collect login_requested.
(** The credentials handed to [setLoggedIn]. *)
Definition installs := collect installed.
(** The answers of [channel.generateCode]. *)
Definition generations := collect generated.
(** The answers of [POST /login/token]. *)
Definition token_requests := collect token_requested.
(** The answers of [getStoredDevice], and the arguments of the calls. *)
Definition lookups := collect looked_up.
Definition lookup_args := collect looked_up_for.
(** The durations handed to [sleep], each with how the call ended. *)
Definition sleeps := collect slept.
(** The calls of [setDeviceVerification]: user id, device id, the three
    flags, and how the call ended. *)
Definition verifications := collect verified.

(** ** Further readings of a trace *)

Definition connected (e : Entry) : option (Completion string) :=
  match e with
  | Called c r =>
      match c in Capability X return Completion X -> option (Completion string) with
      | channel_connect => fun r => Some r
      | _ => fun _ => None
      end r
  | Logged _ => None
  end.

Definition surfaced_digits (e : Entry) : option string :=
  match e with
  | Called c _ =>
      match c with call_onConfirmationDigits digits => Some digits | _ => None end
  | Logged _ => None
  end.

Definition login_answered (e : Entry) : option (Completion IMatrixClientCreds.t) :=
  match e with
  | Called c r =>
      match c in Capability X
            return Completion X -> option (Completion IMatrixClientCreds.t) with
      | sendLoginRequest _ _ _ _ => fun r => Some r
      | _ => fun _ => None
      end r
  | Logged _ => None
  end.

Definition peg_client (e : Entry) : option (Completion (option MatrixClient.t)) :=
  match e with
  | Called c r =>
      match c in Capability X
            return Completion X -> option (Completion (option MatrixClient.t)) with
      | MatrixClientPeg_get => fun r => Some r
      | _ => fun _ => None
      end r
  | Logged _ => None
  end.

Definition raw_devices_read (e : Entry)
  : option (string * Completion (option (JS.Record DeviceInfo.t))) :=
  match e with
  | Called c r =>
      match c in Capability X
            return Completion X ->
                   option (string * Completion (option (JS.Record DeviceInfo.t))) with
      | getRawStoredDevicesForUser userId => fun r => Some (userId, r)
      | _ => fun _ => None
      end r
  | Logged _ => None
  end.

Definition send_answered (e : Entry) : option (Payload.t * Completion unit) :=
  match e with
  | Called c r =>
      match c in Capability X
            return Completion X -> option (Payload.t * Completion unit) with
      | channel_send data => fun r => Some (data, r)
      | _ => fun _ => None
      end r
  | Logged _ => None
  end.

Definition capability_call (e : Entry) : option unit :=
  match e with
  | Called _ _ => Some tt
  | Logged _ => None
  end.

(** The answers of [channel.connect]. *)
Definition connects := collect connected.
(** The digits handed to the [onConfirmationDigits] observer. *)
Definition surfaced := collect surfaced_digits.
(** The answers of [sendLoginRequest]. *)
Definition login_answers := collect login_answered.
(** The answers of [MatrixClientPeg.get()]. *)
Definition peg_clients := collect peg_client.
(** The user ids handed to [getRawStoredDevicesForUser], with the answers. *)
Definition raw_devices := collect raw_devices_read.
(** The payloads handed to [channel.send], each with how the call ended. *)
Definition send_answers := collect send_answered.
(** One [tt] per capability call of the trace, whatever the capability. *)
Definition capability_calls := collect capability_call.

(** What the guard of line 102 and the read of line 106 find under
    [deviceId], [devices] being what [getRawStoredDevicesForUser] answered:
    [Undefined] is the case in which the guard throws. *)
Definition raw_device (devices : option (JS.Record DeviceInfo.t))
           (deviceId : option string) : Member DeviceInfo.t :=
  match devices with
  | Some devices => member devices (to_string deviceId)
  | None => Undefined
  end.

End Orchestrator.

(** The two SDK types are read off the context from here on. *)
Arguments OfDevice {CrossSigningInfo} d.
Arguments channel_generateCode {RendezvousCode CrossSigningInfo}.
Arguments channel_connect {RendezvousCode CrossSigningInfo}.
Arguments channel_send {RendezvousCode CrossSigningInfo} data.
Arguments channel_receive {RendezvousCode CrossSigningInfo}.
Arguments channel_transport_cancel {RendezvousCode CrossSigningInfo} reason.
Arguments call_onConfirmationDigits {RendezvousCode CrossSigningInfo} digits.
Arguments http_authedRequest {RendezvousCode CrossSigningInfo} method path.
Arguments sendLoginRequest {RendezvousCode CrossSigningInfo}
  hsUrl deviceId loginType token.
Arguments setLoggedIn {RendezvousCode CrossSigningInfo} creds.
Arguments MatrixClientPeg_get {RendezvousCode CrossSigningInfo}.
Arguments getRawStoredDevicesForUser {RendezvousCode CrossSigningInfo} userId.
Arguments getStoredDevice {RendezvousCode CrossSigningInfo} userId deviceId.
Arguments setDeviceVerification {RendezvousCode CrossSigningInfo}
  userId deviceId verified blocked crossSigned.
Arguments sleep {RendezvousCode CrossSigningInfo} ms.
Arguments Ret {RendezvousCode CrossSigningInfo A} a.
Arguments Throw {RendezvousCode CrossSigningInfo A} e.
Arguments Logged {RendezvousCode CrossSigningInfo} message.
Arguments this {RendezvousCode CrossSigningInfo}.
Arguments assign {RendezvousCode CrossSigningInfo} f.
Arguments logger_info {RendezvousCode CrossSigningInfo} message.
Arguments generateCode {RendezvousCode} JSON_stringify {CrossSigningInfo}.
Arguments cancel {RendezvousCode CrossSigningInfo} reason.
Arguments surface_digits {RendezvousCode CrossSigningInfo} digits.
Arguments completeOnNewDevice {RendezvousCode CrossSigningInfo}.
Arguments startOnExistingDevice {RendezvousCode CrossSigningInfo}.
Arguments declineLoginOnExistingDevice {RendezvousCode CrossSigningInfo}.
Arguments this_cli {RendezvousCode CrossSigningInfo} member.
Arguments confirmLoginOnExistingDevice {RendezvousCode CrossSigningInfo}.
Arguments check_key {RendezvousCode CrossSigningInfo} deviceInfo keyId.
Arguments checkAndCrossSignDevice {RendezvousCode CrossSigningInfo} deviceInfo.
Arguments stored_device {RendezvousCode CrossSigningInfo} cli.
Arguments crossSign {RendezvousCode CrossSigningInfo} timeout.

(** * The login helper of test/end-to-end-tests/src/usecases/login.ts

    [login(session, username, password, homeserver)] drives a browser
    session: every call on the session, its page or an element handle is a
    capability, answered by an environment that may reject it; the test
    logger only leaves lines in the trace.  The embedding is of the same
    kind as that of the class above, with the failures the helper itself
    raises through [assert]. *)

Module Login.

(** What the helper ends with when it does not resolve: the AssertionError
    of [assert.strictEqual(errorText, null)], carrying the text found, the
    one of [assert(foundHomeUrl)], or what a session call rejected with. *)
Inductive Failure : Type :=
| AssertionError_strictEqual (actual : string)
| AssertionError_ok
| Rejected (e : Thrown).

Inductive Outcome (A : Type) : Type :=
| Resolved (a : A)
| Failed (f : Failure).
Arguments Failed {A} f.

(** The lines of [session.log]. *)
Inductive LogLine : Type :=
| startGroup (description : string)
| step (description : string)
| done
| endGroup.

Section Script.

(** The element handles of the page. *)
Variable ElementHandle : Type.

(** The calls of the helper, indexed by the type of the answer.
    [page.waitForNavigation()] answers with a promise, given by how it
    settles when awaited; [session.poll] is handed a callback. *)
Inductive Capability (Callback : Type) : Type -> Type :=
| session_url (path : string) : Capability Callback string
| page_url : Capability Callback string
| page_waitForNavigation : Capability Callback (Completion unit)
| session_goto (url : string) : Capability Callback unit
| page_screenshot (path : string) : Capability Callback unit
| session_waitNoSpinner : Capability Callback unit
| page_waitForTimeout (ms : Z) : Capability Callback unit
| session_query (selector : string) : Capability Callback ElementHandle
| click (handle : ElementHandle) : Capability Callback unit
| focus (handle : ElementHandle) : Capability Callback unit
| session_replaceInputText (handle : ElementHandle) (text : string)
    : Capability Callback unit
| session_delay (ms : Z) : Capability Callback unit
| session_tryGetInnertext (selector : string)
    : Capability Callback (option string)
| session_poll (callback : Callback) : Capability Callback bool.
Arguments session_url {Callback} path.
Arguments page_url {Callback}.
Arguments page_waitForNavigation {Callback}.
Arguments session_goto {Callback} url.
Arguments page_screenshot {Callback} path.
Arguments session_waitNoSpinner {Callback}.
Arguments page_waitForTimeout {Callback} ms.
Arguments session_query {Callback} selector.
Arguments click {Callback} handle.
Arguments focus {Callback} handle.
Arguments session_replaceInputText {Callback} handle text.
Arguments session_delay {Callback} ms.
Arguments session_tryGetInnertext {Callback} selector.

(** Scripts over a family of calls. *)
Inductive Script (C : Type -> Type) (A : Type) : Type :=
| Ret (a : A)
| Throw (f : Failure)
| Await {X : Type} (c : C X) (k : X -> Script C A)
| Log (line : LogLine) (k : Script C A).
Arguments Ret {C A} a.
Arguments Throw {C A} f.
Arguments Log {C A} line k.

(** A callback is a script that hands out no callback of its own; the
    helper is a script whose calls may hand out callbacks. *)
Definition Callback : Type := Script (Capability Empty_set) bool.
Definition PageCall : Type -> Type := Capability Callback.

Fixpoint bind {C A B} (p : Script C A) (f : A -> Script C B) : Script C B :=
  match p with
  | Ret a => f a
  | Throw e => Throw e
  | Await c k => Await c (fun x => bind (k x) f)
  | Log l k => Log l (bind k f)
  end.

Definition await {C X} (c : C X) : Script C X := Await c (fun x => Ret x).
Definition log {C} (line : LogLine) : Script C unit := Log line (Ret tt).

(** [await promise], for a promise given by how it settles. *)
Definition settle {C A} (promise : Completion A) : Script C A :=
  match promise with
  | Returned a => Ret a
  | Threw e => Throw (Rejected e)
  end.

Notation "x <- p ;; q" := (bind p (fun x => q))
  (at level 61, p at next level, right associativity).
Notation "p ;; q" := (bind p (fun _ => q))
  (at level 61, right associativity).

(** [assert.strictEqual(actual, null)] and [assert(value)]. *)
Definition assert_strictEqual_null {C} (actual : option string)
  : Script C unit :=
  match actual with
  | None => Ret tt
  | Some text => Throw (AssertionError_strictEqual text)
  end.

Definition assert_ok {C} (value : bool) : Script C unit :=
  if value then Ret tt else Throw AssertionError_ok.

(** The global [mxLogDir] the screenshots go to. *)
Variable mxLogDir : option string.

Definition screenshot (name : string) : Script PageCall unit :=
  await (page_screenshot (to_string mxLogDir ++ name)).

(** The callback handed to [session.poll], lines 96-99. *)
Definition at_home : Callback :=
  url <- await page_url ;;
  home <- await (session_url "/#/home") ;;
  Ret (String.eqb url home).

(** [login], lines 21-102. *)
Definition login (username password homeserver : string)
  : Script PageCall unit :=
  log (startGroup "logs in") ;;
  log (step "Navigates to login page") ;;
  navPromise <- await page_waitForNavigation ;;
  target <- await (session_url "/#/login") ;;
  await (session_goto target) ;;
  settle navPromise ;;
  log done ;;
  screenshot "/login-01navigated.png" ;;
  await session_waitNoSpinner ;;
  screenshot "/login-02waitfornospinner.png" ;;
  await (page_waitForTimeout 200) ;;
  screenshot "/login-03waitfortimeout.png" ;;
  (if truthy (Some homeserver) then
     log (step "Clicks button to change homeserver") ;;
     changeButton <- await (session_query ".mx_ServerPicker_change") ;;
     await (click changeButton) ;;
     log done ;;
     screenshot "/login-04clickchangehs.png" ;;
     log (step "Enters homeserver") ;;
     hsInputField <-
       await (session_query ".mx_ServerPickerDialog_otherHomeserver") ;;
     await (session_replaceInputText hsInputField homeserver) ;;
     log done ;;
     screenshot "/login-05enterhs.png" ;;
     log (step "Clicks next") ;;
     nextButton <- await (session_query ".mx_ServerPickerDialog_continue") ;;
     await (click nextButton) ;;
     log done
   else Ret tt) ;;
  await (session_delay 100) ;;
  log (step "Fills in login form") ;;
  usernameField <- await (session_query "#mx_LoginForm_username") ;;
  passwordField <- await (session_query "#mx_LoginForm_password") ;;
  await (session_replaceInputText usernameField username) ;;
  await (session_replaceInputText passwordField password) ;;
  log done ;;
  log (step "Clicks login") ;;
  loginButton <- await (session_query ".mx_Login_submit") ;;
  await (focus loginButton) ;;
  errorText <- await (session_tryGetInnertext ".mx_Login_error") ;;
  assert_strictEqual_null errorText ;;
  await (click loginButton) ;;
  log done ;;
  foundHomeUrl <- await (session_poll at_home) ;;
  assert_ok foundHomeUrl ;;
  log endGroup.

(** ** Running a script *)

Inductive Entry : Type :=
| Called {X : Type} (c : PageCall X) (r : Completion X)
| Logged (line : LogLine).

Record Run (W A : Type) : Type := mkRun {
  outcome : Outcome A;
  world : W;
  trace : list Entry
}.

Definition after {W A} (pre : list Entry) (r : Run W A) : Run W A :=
  mkRun (outcome r) (world r) (pre ++ trace r).

Definition Env (W : Type) : Type :=
  forall X, PageCall X -> W -> Completion X * W.

Fixpoint run {W} (env : Env W) {A} (p : Script PageCall A) (w : W) : Run W A :=
  match p with
  | Ret a => mkRun (Resolved a) w []
  | Throw f => mkRun (Failed f) w []
  | Await c k =>
      match env _ c w with
      | (Returned x, w') => after [Called c (Returned x)] (run env (k x) w')
      | (Threw e, w') => mkRun (Failed (Rejected e)) w' [Called c (Threw e)]
      end
  | Log l k => after [Logged l] (run env k w)
  end.

(** ** Reading a trace *)

Fixpoint collect {B} (f : Entry -> option B) (t : list Entry) : list B :=
  match t with
  | [] => []
  | e :: t' =>
      match f e with
      | Some b => b :: collect f t'
      | None => collect f t'
      end
  end.

Definition queried_entry (e : Entry)
  : option (string * Completion ElementHandle) :=
  match e with
  | Called c r =>
      match c in Capability _ X
            return Completion X -> option (string * Completion ElementHandle) with
      | session_query selector => fun r => Some (selector, r)
      | _ => fun _ => None
      end r
  | Logged _ => None
  end.

Definition typed_entry (e : Entry) : option (ElementHandle * string) :=
  match e with
  | Called c _ =>
      match c with
      | session_replaceInputText handle text => Some (handle, text)
      | _ => None
      end
  | Logged _ => None
  end.

Definition clicked_entry (e : Entry) : option ElementHandle :=
  match e with
  | Called c _ => match c with click handle => Some handle | _ => None end
  | Logged _ => None
  end.

Definition error_text_entry (e : Entry) : option (Completion (option string)) :=
  match e with
  | Called c r =>
      match c in Capability _ X
            return Completion X -> option (Completion (option string)) with
      | session_tryGetInnertext _ => fun r => Some r
      | _ => fun _ => None
      end r
  | Logged _ => None
  end.

Definition polled_entry (e : Entry) : option (Completion bool) :=
  match e with
  | Called c r =>
      match c in Capability _ X return Completion X -> option (Completion bool) with
      | session_poll _ => fun r => Some r
      | _ => fun _ => None
      end r
  | Logged _ => None
  end.

(** The selectors queried, each with the handle found. *)
Definition queried := collect queried_entry.
(** The texts typed, each with the handle typed into. *)
Definition typed := collect typed_entry.
(** The handles clicked. *)
Definition clicked := collect clicked_entry.
(** The answers of [tryGetInnertext]. *)
Definition error_texts := collect error_text_entry.
(** The answers of [poll]. *)
Definition polled := collect polled_entry.

Definition goto_entry (e : Entry) : option (string * Completion unit) :=
  match e with
  | Called c r =>
      match c in Capability _ X
            return Completion X -> option (string * Completion unit) with
      | session_goto url => fun r => Some (url, r)
      | _ => fun _ => None
      end r
  | Logged _ => None
  end.

Definition logged_entry (e : Entry) : option LogLine :=
  match e with
  | Called _ _ => None
  | Logged line => Some line
  end.

(** The URLs navigated to, each with how [goto] ended. *)
Definition gotos := collect goto_entry.
(** The lines of the log. *)
Definition logged := collect logged_entry.

Definition is_step (line : LogLine) : bool :=
  match line with step _ => true | _ => false end.
Definition is_done (line : LogLine) : bool :=
  match line with done => true | _ => false end.

End Script.

Arguments session_url {ElementHandle Callback} path.
Arguments page_url {ElementHandle Callback}.
Arguments page_waitForNavigation {ElementHandle Callback}.
Arguments session_goto {ElementHandle Callback} url.
Arguments page_screenshot {ElementHandle Callback} path.
Arguments session_waitNoSpinner {ElementHandle Callback}.
Arguments page_waitForTimeout {ElementHandle Callback} ms.
Arguments session_query {ElementHandle Callback} selector.
Arguments click {ElementHandle Callback} handle.
Arguments focus {ElementHandle Callback} handle.
Arguments session_replaceInputText {ElementHandle Callback} handle text.
Arguments session_delay {ElementHandle Callback} ms.
Arguments session_tryGetInnertext {ElementHandle Callback} selector.
Arguments session_poll {ElementHandle Callback} callback.
Arguments Logged {ElementHandle} line.
Arguments at_home {ElementHandle}.
Arguments screenshot {ElementHandle} mxLogDir name.
Arguments login {ElementHandle} mxLogDir username password homeserver.

(** The selectors of the login page, in the order the helper queries them
    when it changes the homeserver and when it does not. *)
Definition picker_selectors : list string :=
  [".mx_ServerPicker_change"; ".mx_ServerPickerDialog_otherHomeserver";
   ".mx_ServerPickerDialog_continue"].
Definition form_selectors : list string :=
  ["#mx_LoginForm_username"; "#mx_LoginForm_password"; ".mx_Login_submit"].

End Login.

(** * Scenarios

    A scripted environment: the channel hands out the payloads of [inbox]
    one by one and then nothing, the crypto store the answers of [store];
    logging in yields device DEV1 of @alice:example.org, whose stored keys
    are one ed25519 key; every other call resolves. *)

Module Scripted.

Record World : Type := mk {
  inbox : list (option Payload.t);
  store : list (option DeviceInfo.t)
}.

Definition alice : string := "@alice:example.org".
Definition keys_DEV1 : JS.Record string := [("ed25519:DEV1", "K1")].
Definition DEV1 : DeviceInfo.t := DeviceInfo.mk keys_DEV1.

Definition env : Env unit unit World :=
  fun X c =>
    match c in Capability _ _ X return World -> Completion X * World with
    | channel_generateCode => fun w => (Returned tt, w)
    | channel_connect => fun w => (Returned "1234", w)
    | channel_send _ => fun w => (Returned tt, w)
    | channel_receive => fun w =>
        match inbox w with
        | [] => (Returned None, w)
        | p :: rest => (Returned p, mk rest (store w))
        end
    | channel_transport_cancel _ => fun w => (Returned tt, w)
    | call_onConfirmationDigits _ => fun w => (Returned tt, w)
    | http_authedRequest _ _ => fun w =>
        (Returned (LoginToken.mk "tok1" 120), w)
    | sendLoginRequest hs _ _ _ => fun w =>
        (Returned (IMatrixClientCreds.mk hs alice (Some "DEV1") "secret"), w)
    | setLoggedIn _ => fun w => (Returned tt, w)
    | MatrixClientPeg_get => fun w =>
        (Returned (Some (MatrixClient.mk alice "https://example.org" true)), w)
    | getRawStoredDevicesForUser _ => fun w =>
        (Returned (Some [("DEV1", DEV1)]), w)
    | getStoredDevice _ _ => fun w =>
        match store w with
        | [] => (Returned None, w)
        | d :: rest => (Returned d, mk (inbox w) rest)
        end
    | setDeviceVerification _ _ _ _ _ => fun w => (Returned (OfDevice DEV1), w)
    | sleep _ => fun w => (Returned tt, w)
    end.

Definition stringify (_ : unit) : string := "{}".

(** The existing device, signed in as alice, before and after the new
    device reported its keys. *)
Definition existing : Rendezvous.t :=
  Rendezvous.constructor
    (Some (MatrixClient.mk alice "https://example.org" true)).

Definition linked : Rendezvous.t :=
  Rendezvous.set_newDeviceKeys (Some keys_DEV1)
    (Rendezvous.set_newDeviceId (Some "DEV1") existing).

(** The new device: no client yet. *)
Definition fresh : Rendezvous.t := Rendezvous.constructor None.

Definition offer : Payload.t :=
  Payload.mk (Some alice) (Some "https://example.org") (Some "tok1")
             None None None.
Definition declined : Payload.t :=
  Payload.mk None None None (Some "declined") None None.
Definition keys_report : Payload.t :=
  Payload.mk None None None (Some "success") (Some "DEV1") (Some keys_DEV1).

(** A report that says "success" and names no device. *)
Definition success_without_deviceId : Payload.t :=
  Payload.mk None None None (Some "success") None (Some keys_DEV1).

(** Nothing in the inbox, nothing in the store. *)
Definition world0 : World := mk [] [].

End Scripted.

Import Scripted.

(** Variations of the scripted environment, and a scripted login page. *)

Module Variations.

(** [Scripted.env] but for one family of calls, answered by [override]. *)
Definition env_without_device : Env unit unit World :=
  fun X c =>
    match c in Capability _ _ X0
          return (World -> Completion X0 * World) -> World -> Completion X0 * World with
    | getRawStoredDevicesForUser _ => fun _ w => (Returned (Some []), w)
    | _ => fun scripted => scripted
    end (env c).

(** The client of the peg has no crypto. *)
Definition env_without_crypto : Env unit unit World :=
  fun X c =>
    match c in Capability _ _ X0
          return (World -> Completion X0 * World) -> World -> Completion X0 * World with
    | MatrixClientPeg_get => fun _ w =>
        (Returned (Some (MatrixClient.mk alice "https://example.org" false)), w)
    | _ => fun scripted => scripted
    end (env c).

(** The channel refuses to generate a code. *)
Definition env_without_code : Env unit unit World :=
  fun X c =>
    match c in Capability _ _ X0
          return (World -> Completion X0 * World) -> World -> Completion X0 * World with
    | channel_generateCode => fun _ w => (Threw (Error "no code"), w)
    | _ => fun scripted => scripted
    end (env c).

(** The transport fails to cancel. *)
Definition env_cancel_rejects : Env unit unit World :=
  fun X c =>
    match c in Capability _ _ X0
          return (World -> Completion X0 * World) -> World -> Completion X0 * World with
    | channel_transport_cancel _ => fun _ w =>
        (Threw (Error "transport closed"), w)
    | _ => fun scripted => scripted
    end (env c).

(** Logging in yields a device whose id is the name of a member that every
    object inherits; the stored devices still hold DEV1 only. *)
Definition env_inherited_device_id (deviceId : string) : Env unit unit World :=
  fun X c =>
    match c in Capability _ _ X0
          return (World -> Completion X0 * World) -> World -> Completion X0 * World with
    | sendLoginRequest hs _ _ _ => fun _ w =>
        (Returned (IMatrixClientCreds.mk hs alice (Some deviceId) "secret"), w)
    | _ => fun scripted => scripted
    end (env c).

End Variations.

Module ScriptedPage.

(** What the page shows under .mx_Login_error, and whether the poll finds
    the home page.  An element handle is the selector it was found under. *)
Record Page : Type := mk {
  error_text : option string;
  found_home : bool
}.

Definition env : Login.Env string Page :=
  fun X c =>
    match c in Login.Capability _ _ X return Page -> Completion X * Page with
    | Login.session_url path => fun w => (Returned ("http://localhost" ++ path), w)
    | Login.page_url => fun w => (Returned "http://localhost/#/home", w)
    | Login.page_waitForNavigation => fun w => (Returned (Returned tt), w)
    | Login.session_goto _ => fun w => (Returned tt, w)
    | Login.page_screenshot _ => fun w => (Returned tt, w)
    | Login.session_waitNoSpinner => fun w => (Returned tt, w)
    | Login.page_waitForTimeout _ => fun w => (Returned tt, w)
    | Login.session_query selector => fun w => (Returned selector, w)
    | Login.click _ => fun w => (Returned tt, w)
    | Login.focus _ => fun w => (Returned tt, w)
    | Login.session_replaceInputText _ _ => fun w => (Returned tt, w)
    | Login.session_delay _ => fun w => (Returned tt, w)
    | Login.session_tryGetInnertext _ => fun w => (Returned (error_text w), w)
    | Login.session_poll _ => fun w => (Returned (found_home w), w)
    end.

End ScriptedPage.

(** * Properties *)

Section Properties.

Variable RendezvousCode : Type.
Variable JSON_stringify : RendezvousCode -> string.
Variable CrossSigningInfo : Type.

Local Abbreviation Entry := (Entry RendezvousCode CrossSigningInfo).
Local Abbreviation Prog := (Prog RendezvousCode CrossSigningInfo).
Local Abbreviation Run := (Run RendezvousCode CrossSigningInfo).
Local Abbreviation Env := (Env RendezvousCode CrossSigningInfo).
Local Abbreviation generateCode := (generateCode JSON_stringify).

(** ** Laws of [run] *)

Lemma collect_app B (f : Entry -> option B) (t1 t2 : list Entry) :
  collect f (t1 ++ t2) = (collect f t1 ++ collect f t2)%list.
Proof.
  induction t1 as [|e t1 IH]; simpl; [reflexivity|].
  destruct (f e); simpl; now rewrite IH.
Qed.

Lemma after_after W A (t1 t2 : list Entry) (r : Run W A) :
  after t1 (after t2 r) = after (t1 ++ t2)%list r.
Proof. unfold after; simpl. now rewrite app_assoc. Qed.

Lemma after_nil W A (r : Run W A) : after [] r = r.
Proof. now destruct r. Qed.

(** Running [p] and then [f]: [f] runs from where [p] ended, unless [p]
    threw. *)
Lemma run_bind W (env : Env W) A B (p : Prog A) (f : A -> Prog B) s w :
  run env (bind p f) s w =
  match completion (run env p s w) with
  | Returned a =>
      after (trace (run env p s w))
            (run env (f a) (session (run env p s w)) (world (run env p s w)))
  | Threw e =>
      mkRun (Threw e) (session (run env p s w)) (world (run env p s w))
            (trace (run env p s w))
  end.
Proof.
  revert s w.
  induction p as [a|e|X c k IH|m k IH|k IH|g k IH]; intros s w; simpl.
  - now rewrite after_nil.
  - reflexivity.
  - destruct (env _ c w) as [[x|e] w']; simpl; [|reflexivity].
    rewrite IH. destruct (completion (run env (k x) s w')); simpl.
    + now rewrite after_after.
    + reflexivity.
  - rewrite IH. destruct (completion (run env k s w)); simpl.
    + now rewrite after_after.
    + reflexivity.
  - apply IH.
  - apply IH.
Qed.

(** Take the next answer of the environment apart. *)
Ltac answer :=
  match goal with
  | |- context [match ?env ?X ?c ?w with pair _ _ => _ end] =>
      let x := fresh "x" in
      let e := fresh "e" in
      let w' := fresh "w" in
      let E := fresh "E" in
      destruct (env X c w) as [[x|e] w'] eqn:E; simpl
  end.

(** ** generateCode *)

(** C9.  generateCode is idempotent.  In a session whose code is already
    there (truthy, as the guard of the method tests it) the call is a no-op:
    it returns, leaves the session and with it the code as they are, and
    asks the channel for nothing.  Hence, JSON.stringify never yielding the
    empty text, a second call after a completed first one finds the code of
    the first, changes nothing and does not generate again. *)
Theorem generateCode_idempotent :
  forall W (env : Env W) (s : Rendezvous.t) (w : W),
    let r1 := run env generateCode s w in
    let r2 := run env generateCode (session r1) (world r1) in
    (truthy (Rendezvous.code s) = true ->
     r1 = mkRun (Returned tt) s w [])
    /\
    ((forall c, JSON_stringify c <> "") ->
     completion r1 = Returned tt ->
     truthy (Rendezvous.code (session r1)) = true
     /\ r2 = mkRun (Returned tt) (session r1) (world r1) []
     /\ Rendezvous.code (session r2) = Rendezvous.code (session r1)
     /\ generations (trace r2) = []).
Proof.
  intros W env s w.
  assert (noop : forall s' w', truthy (Rendezvous.code s') = true ->
            run env generateCode s' w' = mkRun (Returned tt) s' w' []).
  { intros s' w' H. unfold generateCode. simpl. now rewrite H. }
  split; [apply noop|].
  intros nonempty done.
  assert (T : truthy (Rendezvous.code (session (run env generateCode s w))) = true).
  { revert done. unfold generateCode. simpl.
    destruct (truthy (Rendezvous.code s)) eqn:T; simpl; [intros _; exact T|].
    answer; [intros _|discriminate].
    apply negb_true_iff, String.eqb_neq, nonempty. }
  split; [exact T|]. rewrite (noop _ _ T). simpl. repeat split.
Qed.

Lemma strict_eq_true a b : strict_eq a b = true <-> a = b.
Proof.
  destruct a as [x|], b as [y|]; simpl; split; try congruence.
  - intros H. apply String.eqb_eq in H. now subst.
  - intros H. injection H as ->. apply String.eqb_refl.
Qed.

Lemma strict_eq_false a b : strict_eq a b = false <-> a <> b.
Proof.
  rewrite <- strict_eq_true. destruct (strict_eq a b); split; congruence.
Qed.

(** One step of a run: the next answer of the environment, the next
    branch of the method. *)
Ltac step :=
  match goal with
  | |- context [match ?env ?X ?c ?w with pair _ _ => _ end] =>
      let x := fresh "x" in
      let e := fresh "e" in
      let w' := fresh "w" in
      destruct (env X c w) as [[x|e] w']
  | |- context [if ?b then _ else _] => destruct b eqn:?
  | |- context [match ?o with Some _ => _ | None => _ end] =>
      is_var o; destruct o
  | |- context [match ?o with Some _ => _ | None => _ end] => destruct o eqn:?
  | |- context [match member ?o ?k with Own _ => _ | _ => _ end] =>
      destruct (member o k) eqn:?
  end; simpl.

Ltac walk := simpl; repeat step.

(** What was received, once the trace is known. *)
Ltac received_is :=
  repeat match goal with
  | H : In _ [] |- _ => destruct H
  | H : In _ (_ :: _) |- _ => destruct H as [H|H]
  | H : _ \/ _ |- _ => destruct H as [H|H]
  | H : Returned _ = Returned _ |- _ => injection H as H
  | H : Some _ = Some _ |- _ => injection H as H
  | H : @Threw _ _ = Returned _ |- _ => discriminate H
  | H : Returned _ = @Threw _ _ |- _ => discriminate H
  | H : Some _ = None |- _ => discriminate H
  | H : None = Some _ |- _ => discriminate H
  | H : False |- _ => destruct H
  end; subst.

(** ** The two roles

    A received payload is read off the trace: the premises below say what
    [channel.receive] answered in the run at hand. *)

(** C8.  In both roles a receive that yields nothing ends the method with
    no result: completeOnNewDevice and confirmLoginOnExistingDevice return
    undefined, nothing is thrown, and the session is as it was. *)
Theorem receive_nothing_is_no_result :
  forall W (env : Env W) (s : Rendezvous.t) (w : W),
    (In (Returned None) (receives (trace (run env completeOnNewDevice s w))) ->
     completion (run env completeOnNewDevice s w) = Returned None
     /\ session (run env completeOnNewDevice s w) = s)
    /\
    (In (Returned None)
        (receives (trace (run env confirmLoginOnExistingDevice s w))) ->
     completion (run env confirmLoginOnExistingDevice s w) = Returned None
     /\ session (run env confirmLoginOnExistingDevice s w) = s).
Proof.
  intros W env s w. split.
  - unfold completeOnNewDevice, surface_digits, cancel. walk.
    all: intros H; simpl in H; received_is; split; reflexivity.
  - unfold confirmLoginOnExistingDevice, this_cli. walk.
    all: intros H; simpl in H; received_is; split; reflexivity.
Qed.

(** The guards met on the way, as equations. *)
Ltac guards :=
  repeat match goal with
  | H : strict_eq _ _ = true |- _ => apply strict_eq_true in H
  | H : strict_eq _ _ = false |- _ => apply strict_eq_false in H
  | H : negb _ = true |- _ => apply negb_true_iff in H
  | H : negb _ = false |- _ => apply negb_false_iff in H
  end.

Ltac settle :=
  guards; try solve [exfalso; intuition congruence];
  repeat split; try reflexivity; try solve [intuition congruence].

(** C3.  A received payload that is not a decline and whose homeserver or
    login_token is missing (or empty, which the guards treat alike) makes
    completeOnNewDevice throw the error that names the field, the
    homeserver first, and sendLoginRequest is never called. *)
Theorem completeOnNewDevice_missing_field :
  forall W (env : Env W) (s : Rendezvous.t) (w : W) (p : Payload.t),
    let r := run env completeOnNewDevice s w in
    In (Returned (Some p)) (receives (trace r)) ->
    Payload.outcome p <> Some "declined" ->
    truthy (Payload.homeserver p) = false
    \/ truthy (Payload.login_token p) = false ->
    completion r =
      Threw (Error (if truthy (Payload.homeserver p)
                    then "No login token returned"
                    else "No homeserver returned"))
    /\ logins (trace r) = []
    /\ session r = s.
Proof.
  intros W env s w p r. subst r.
  unfold completeOnNewDevice, surface_digits, cancel. walk.
  all: intros H; simpl in H; received_is; intros D M; settle.
Qed.

(** C5, as the code has it.  A received payload with outcome "declined"
    makes completeOnNewDevice call the transport's cancel once, with
    UserDeclined, and nothing more: no login, no session install, no send.
    It returns no result when that cancel resolves; the cancel is awaited,
    so when it rejects the method ends in that rejection, an error. *)
Theorem completeOnNewDevice_declined :
  forall W (env : Env W) (s : Rendezvous.t) (w : W) (p : Payload.t),
    let r := run env completeOnNewDevice s w in
    In (Returned (Some p)) (receives (trace r)) ->
    Payload.outcome p = Some "declined" ->
    exists c : Completion unit,
      cancels (trace r) = [(UserDeclined, c)]
      /\ completion r =
           match c with Returned _ => Returned None | Threw e => Threw e end
      /\ logins (trace r) = []
      /\ installs (trace r) = []
      /\ sends (trace r) = []
      /\ session r = s.
Proof.
  intros W env s w p r. subst r.
  unfold completeOnNewDevice, surface_digits, cancel. walk.
  all: intros H; simpl in H; received_is; intros D; guards;
    try congruence.
  all: eexists; repeat split.
Qed.

(** C7.  confirmLoginOnExistingDevice once the channel answered: nothing
    received, it returns no result; a payload whose outcome is not
    "success", it throws "Linking failed"; a payload with outcome "success",
    it stores the payload's deviceId and deviceKeys in newDeviceId and
    newDeviceKeys and returns that device id.  A receive is always preceded
    by the token request and the send of the offer, in this order. *)
Theorem confirmLoginOnExistingDevice_outcomes :
  forall W (env : Env W) (s : Rendezvous.t) (w : W),
    let r := run env confirmLoginOnExistingDevice s w in
    (In (Returned None) (receives (trace r)) ->
     completion r = Returned None)
    /\
    (forall p, In (Returned (Some p)) (receives (trace r)) ->
       Payload.outcome p <> Some "success" ->
       completion r = Threw (Error "Linking failed"))
    /\
    (forall p, In (Returned (Some p)) (receives (trace r)) ->
       Payload.outcome p = Some "success" ->
       completion r = Returned (Payload.deviceId p)
       /\ session r =
            Rendezvous.set_newDeviceKeys (Payload.deviceKeys p)
              (Rendezvous.set_newDeviceId (Payload.deviceId p) s))
    /\
    (forall a, In a (receives (trace r)) ->
       exists cli token offer,
         Rendezvous.cli s = Some cli
         /\ offer = Payload.mk (Some (MatrixClient.getUserId cli))
                      (Some (MatrixClient.baseUrl cli))
                      (Some (LoginToken.login_token token)) None None None
         /\ trace r =
              [Logged "Requesting login token";
               Called (http_authedRequest "POST" "/login/token") (Returned token);
               Called (channel_send offer) (Returned tt);
               Logged "Waiting for outcome";
               Called channel_receive a]).
Proof.
  intros W env s w r. subst r.
  unfold confirmLoginOnExistingDevice, this_cli. walk.
  all: repeat split; intros; simpl in *; received_is; settle.
  all: repeat match goal with u : unit |- _ => destruct u end.
  all: do 3 eexists; repeat split.
Qed.

(** C10.  Unless the channel delivered a payload with outcome "success",
    confirmLoginOnExistingDevice leaves the session as it found it,
    newDeviceId and newDeviceKeys included, and returns no device id: so it
    is on nothing received, on any other outcome, and when a capability
    rejects. *)
Theorem confirmLoginOnExistingDevice_atomic :
  forall W (env : Env W) (s : Rendezvous.t) (w : W),
    let r := run env confirmLoginOnExistingDevice s w in
    (forall p, In (Returned (Some p)) (receives (trace r)) ->
       Payload.outcome p <> Some "success") ->
    session r = s
    /\ Rendezvous.newDeviceId (session r) = Rendezvous.newDeviceId s
    /\ Rendezvous.newDeviceKeys (session r) = Rendezvous.newDeviceKeys s
    /\ forall d, completion r <> Returned (Some d).
Proof.
  intros W env s w r. subst r.
  unfold confirmLoginOnExistingDevice, this_cli. walk.
  all: intros H; simpl in H; repeat split; try discriminate.
  all: guards; exfalso; eapply H; [left; reflexivity | assumption].
Qed.

(** C6, as the code has it.  confirmLoginOnExistingDevice sends at most one
    payload, and it is made of the client's user id, the client's base URL
    and the login token of the token request; it has no outcome field (and
    no deviceId or deviceKeys). *)
Theorem confirmLoginOnExistingDevice_offer :
  forall W (env : Env W) (s : Rendezvous.t) (w : W) (offer : Payload.t),
    let r := run env confirmLoginOnExistingDevice s w in
    In offer (sends (trace r)) ->
    sends (trace r) = [offer]
    /\ exists cli token,
         Rendezvous.cli s = Some cli
         /\ token_requests (trace r) = [Returned token]
         /\ offer = Payload.mk (Some (MatrixClient.getUserId cli))
                      (Some (MatrixClient.baseUrl cli))
                      (Some (LoginToken.login_token token)) None None None.
Proof.
  intros W env s w offer r. subst r.
  unfold confirmLoginOnExistingDevice, this_cli. walk.
  all: intros H; simpl in H; received_is.
  all: split; [reflexivity|]; do 2 eexists; repeat split.
Qed.


(** ** The key-match check *)

Lemma collect_logged B (f : Entry -> option B) (logs : list string) :
  (forall m, f (Logged m) = None) -> collect f (map Logged logs) = [].
Proof.
  intros quiet. induction logs as [|m logs IH]; simpl; [reflexivity|].
  now rewrite quiet.
Qed.

(** Two reads under one key are [===] exactly when the own properties
    are: what is not an own property is inherited by both objects alike. *)
Lemma member_strict_eq_get (stored reported : JS.Record string) k :
  member_strict_eq (member stored k) (member reported k)
  = strict_eq (get stored k) (get reported k).
Proof.
  unfold member.
  destruct (get stored k), (get reported k); simpl; try reflexivity.
  - now destruct (inherited k).
  - now destruct (inherited k).
  - destruct (inherited k); simpl; [apply String.eqb_refl|reflexivity].
Qed.

Lemma run_check_key W (env : Env W) deviceInfo reported s w keyId :
  Rendezvous.newDeviceKeys s = Some reported ->
  exists m,
    run env (check_key deviceInfo keyId) s w =
    mkRun
      (if differing (DeviceInfo.keys deviceInfo) reported keyId
       then Threw (Error ("New device has different keys than expected for "
                            ++ keyId))
       else Returned tt)
      s w [Logged m].
Proof.
  intros K. unfold check_key, differing. simpl. rewrite K. simpl.
  rewrite member_strict_eq_get.
  destruct (negb (strict_eq (get (DeviceInfo.keys deviceInfo) keyId)
                            (get reported keyId)));
    simpl; eexists; reflexivity.
Qed.

(** The loop of lines 169-174 stops at the first key id of the list whose
    two values differ and throws naming it; it only logs. *)
Lemma run_check_keys W (env : Env W) deviceInfo reported s w ks :
  Rendezvous.newDeviceKeys s = Some reported ->
  exists logs,
    run env (for_of ks (check_key deviceInfo)) s w =
    mkRun
      match find (differing (DeviceInfo.keys deviceInfo) reported) ks with
      | Some keyId =>
          Threw (Error ("New device has different keys than expected for "
                          ++ keyId))
      | None => Returned tt
      end
      s w (map Logged logs).
Proof.
  intros K. induction ks as [|k ks [logs IH]]; cbn [for_of find].
  - now exists [].
  - rewrite run_bind.
    destruct (@run_check_key _ env deviceInfo _ _ w k K) as [m ->]. cbn [completion session world trace].
    destruct (differing (DeviceInfo.keys deviceInfo) reported k).
    + now exists [m].
    + rewrite IH. now exists (m :: logs).
Qed.

(** [checkAndCrossSignDevice] as a whole: the count test, the loop, the
    call. *)
Lemma run_checkAndCrossSignDevice W (env : Env W) deviceInfo reported s w :
  Rendezvous.newDeviceKeys s = Some reported ->
  let stored := DeviceInfo.keys deviceInfo in
  let r := run env (checkAndCrossSignDevice deviceInfo) s w in
  exists logs,
    if negb (Nat.eqb (length stored) (length reported)) then
      r = mkRun
            (Threw (Error ("New device has different keys than expected: "
                             ++ number (length stored) ++ " vs "
                             ++ number (length reported))))
            s w []
    else
      match find (differing stored reported) (Object_keys reported) with
      | Some keyId =>
          r = mkRun
                (Threw (Error ("New device has different keys than expected for "
                                 ++ keyId)))
                s w (map Logged logs)
      | None =>
          match Rendezvous.cli s with
          | None => r = mkRun (Threw (TypeError "crypto")) s w (map Logged logs)
          | Some cli =>
              if MatrixClient.crypto cli then
                let call := setDeviceVerification (MatrixClient.getUserId cli)
                              (Rendezvous.newDeviceId s) true false true in
                r = mkRun (fst (env _ call w)) s (snd (env _ call w))
                      (map Logged logs ++ [Called call (fst (env _ call w))])
              else
                r = mkRun (Threw (TypeError "setDeviceVerification")) s w
                      (map Logged logs)
          end
      end.
Proof.
  intros K stored r. subst r stored.
  destruct (@run_check_keys _ env deviceInfo _ _ w (Object_keys reported) K) as [logs L].
  exists logs. unfold checkAndCrossSignDevice, this. cbn [run bind]. rewrite K.
  unfold Object_keys in *. rewrite !length_map.
  destruct (negb (Nat.eqb _ _)); [reflexivity|].
  rewrite run_bind, L. cbn [completion session world trace].
  destruct (find _ _); [reflexivity|].
  unfold this_cli. simpl. destruct (Rendezvous.cli s) as [cli|]; simpl.
  - destruct (MatrixClient.crypto cli); simpl.
    + destruct (env _ _ w) as [[x|e] w']; unfold after; simpl; now rewrite ?app_nil_r.
    + unfold after; simpl; now rewrite ?app_nil_r.
  - unfold after; simpl; now rewrite ?app_nil_r.
Qed.

Lemma get_in V (o : JS.Record V) k :
  In k (Object_keys o) -> exists v, get o k = Some v.
Proof.
  induction o as [|[k' v'] o IH]; simpl; [intros []|].
  destruct (String.eqb_spec k' k) as [->|N]; [now exists v'|].
  intros [E|I]; [contradiction|]. now apply IH.
Qed.

Lemma get_not_in V (o : JS.Record V) k :
  ~ In k (Object_keys o) -> get o k = None.
Proof.
  induction o as [|[k' v'] o IH]; simpl; [reflexivity|].
  intros N. destruct (String.eqb_spec k' k) as [->|D].
  - exfalso. apply N. now left.
  - apply IH. intros I. apply N. now right.
Qed.

Lemma get_some_in V (o : JS.Record V) k v :
  get o k = Some v -> In k (Object_keys o).
Proof.
  induction o as [|[k' v'] o IH]; simpl; [discriminate|].
  destruct (String.eqb_spec k' k) as [->|D]; [now left|].
  intros G. right. now apply IH.
Qed.

Lemma differing_false stored reported k :
  differing stored reported k = false <-> get stored k = get reported k.
Proof.
  unfold differing. rewrite negb_false_iff. apply strict_eq_true.
Qed.

Lemma differing_true stored reported k :
  differing stored reported k = true <-> get stored k <> get reported k.
Proof.
  unfold differing. rewrite negb_true_iff. apply strict_eq_false.
Qed.

(** No key id of the list differs exactly when the loop finds none. *)
Lemma find_differing_none stored reported ks :
  find (differing stored reported) ks = None <->
  (forall k, In k ks -> get stored k = get reported k).
Proof.
  split.
  - intros F k I. apply differing_false. exact (find_none _ _ F k I).
  - intros A. induction ks as [|k ks IH]; simpl; [reflexivity|].
    assert (D : differing stored reported k = false) by (apply differing_false, A; now left).
    rewrite D. apply IH. intros k' I. apply A. now right.
Qed.

(** If some key id of the list differs, the loop finds one, and it is a key
    id of the list that differs. *)
Lemma find_differing_some stored reported ks k :
  In k ks -> get stored k <> get reported k ->
  exists keyId,
    find (differing stored reported) ks = Some keyId
    /\ In keyId ks /\ get stored keyId <> get reported keyId.
Proof.
  intros I D.
  destruct (find (differing stored reported) ks) as [keyId|] eqn:F.
  - exists keyId. split; [reflexivity|].
    destruct (find_some _ _ F) as [I' D']. split; [exact I'|].
    now apply differing_true.
  - exfalso. apply D. exact (proj1 (@find_differing_none _ _ _) F k I).
Qed.

(** Two objects of the same size, the stored one agreeing with the reported
    one on every key id of the reported one, are the same map. *)
Lemma exact_match (stored reported : JS.Record string) :
  NoDup (Object_keys reported) ->
  length stored = length reported ->
  (forall k, In k (Object_keys reported) -> get stored k = get reported k) ->
  forall k, get stored k = get reported k.
Proof.
  intros ND L A k.
  destruct (in_dec string_dec k (Object_keys reported)) as [I|N]; [now apply A|].
  rewrite (@get_not_in _ _ _ N). apply get_not_in. intros I. apply N.
  revert I. generalize k. clear k N. apply NoDup_length_incl; [exact ND| |].
  - unfold Object_keys. rewrite !length_map. lia.
  - intros k I. destruct (@get_in _ _ _ I) as [v G].
    apply get_some_in with v. now rewrite A.
Qed.

(** C1.  The key-match check of checkAndCrossSignDevice, for the stored
    device and the remembered newDeviceKeys.  Different sizes: it throws the
    error that names the expected and the actual count.  Equal sizes and
    some key id of the reported object whose stored value is not the
    reported one: it throws the error that names such a key id, the first
    one in the order of Object.keys.  In both cases, and in no other, it
    does not reach setDeviceVerification.  Equal sizes and every reported
    key id with the same stored value: it calls
    setDeviceVerification(userId, newDeviceId, true, false, true) once and
    ends as that call ends.  So the call is made only on a full match, where
    the two objects are the same map. *)
Theorem checkAndCrossSignDevice_key_match :
  forall W (env : Env W) (s : Rendezvous.t) (w : W)
         (deviceInfo : DeviceInfo.t) (reported : JS.Record string),
    Rendezvous.newDeviceKeys s = Some reported ->
    let stored := DeviceInfo.keys deviceInfo in
    let r := run env (checkAndCrossSignDevice deviceInfo) s w in
    (length stored <> length reported ->
     completion r =
       Threw (Error ("New device has different keys than expected: "
                       ++ number (length stored) ++ " vs "
                       ++ number (length reported)))
     /\ verifications (trace r) = [])
    /\
    (length stored = length reported ->
     forall k, In k (Object_keys reported) ->
       get stored k <> get reported k ->
       exists keyId,
         In keyId (Object_keys reported)
         /\ get stored keyId <> get reported keyId
         /\ find (differing stored reported) (Object_keys reported) = Some keyId
         /\ completion r =
              Threw (Error ("New device has different keys than expected for "
                              ++ keyId))
         /\ verifications (trace r) = [])
    /\
    (length stored = length reported ->
     (forall k, In k (Object_keys reported) -> get stored k = get reported k) ->
     forall cli, Rendezvous.cli s = Some cli -> MatrixClient.crypto cli = true ->
       exists c,
         verifications (trace r) =
           [(MatrixClient.getUserId cli, Rendezvous.newDeviceId s,
             true, false, true, c)]
         /\ completion r = c)
    /\
    (verifications (trace r) <> [] ->
     length stored = length reported
     /\ (forall k, In k (Object_keys reported) -> get stored k = get reported k)
     /\ (NoDup (Object_keys reported) ->
         forall k, get stored k = get reported k))
    /\ session r = s.
Proof.
  intros W env s w deviceInfo reported K stored r.
  destruct (@run_checkAndCrossSignDevice _ env deviceInfo _ s w K) as [logs R].
  fold stored in R. fold r in R.
  assert (Q : forall t : list Entry,
            verifications (map Logged logs ++ t) = verifications t).
  { intros t. unfold verifications. rewrite collect_app, collect_logged; reflexivity. }
  assert (Q0 : verifications (map (@Logged RendezvousCode CrossSigningInfo) logs) = []).
  { rewrite <- (app_nil_r (map Logged logs)). now rewrite Q. }
  destruct (Nat.eqb_spec (length stored) (length reported)) as [L|L];
    cbn [negb] in R.
  - destruct (find (differing stored reported) (Object_keys reported))
      as [keyId|] eqn:F.
    + rewrite R; cbn [completion trace session]. rewrite Q0.
      repeat split; try congruence.
      * intros _ k I D.
        destruct (@find_differing_some stored reported _ _ I D) as (k' & F' & I' & D').
        exists k'. assert (k' = keyId) by congruence. subst k'.
        repeat split; assumption.
      * intros _ A. apply find_differing_none in A. congruence.
    + pose proof (proj1 (@find_differing_none _ _ _) F) as A.
      repeat split; try congruence.
      * intros _ k I D. exfalso. apply D, A, I.
      * intros _ _ cli C Y. rewrite C, Y in R. rewrite R.
        cbn [completion trace session]. rewrite Q. eexists. split; reflexivity.
      * exact A.
      * intros ND. now apply exact_match.
      * destruct (Rendezvous.cli s) as [cli|];
          [destruct (MatrixClient.crypto cli)|]; rewrite R; reflexivity.
  - rewrite R; cbn [completion trace session]. repeat split; try congruence.
    all: exfalso; apply H; reflexivity.
Qed.

(** ** crossSign *)

Lemma run_bind_ret W (env : Env W) A B (p : Prog A) (f : A -> B) s w :
  run env (bind p (fun a => Ret (f a))) s w = map_run f (run env p s w).
Proof.
  rewrite run_bind. unfold map_run, after.
  destruct (run env p s w) as [[a|e] s' w' t]; simpl; now rewrite ?app_nil_r.
Qed.

(** The key-match check neither looks up nor sleeps. *)
Lemma checkAndCrossSignDevice_quiet W (env : Env W) deviceInfo reported s w :
  Rendezvous.newDeviceKeys s = Some reported ->
  lookups (trace (run env (checkAndCrossSignDevice deviceInfo) s w)) = []
  /\ sleeps (trace (run env (checkAndCrossSignDevice deviceInfo) s w)) = []
  /\ lookup_args (trace (run env (checkAndCrossSignDevice deviceInfo) s w)) = [].
Proof.
  intros K.
  destruct (@run_checkAndCrossSignDevice _ env deviceInfo _ s w K) as [logs R].
  cbv zeta in R.
  assert (Q : forall B (f : Entry -> option B) t,
             (forall m, f (Logged m) = None) ->
             collect f (map Logged logs ++ t) = collect f t).
  { intros B f t q. now rewrite collect_app, collect_logged. }
  assert (Q0 : forall B (f : Entry -> option B),
             (forall m, f (Logged m) = None) ->
             collect f (map Logged logs) = []).
  { intros B f q. now apply collect_logged. }
  unfold lookups, sleeps, lookup_args.
  destruct (negb _); [rewrite R; repeat split; reflexivity|].
  destruct (find _ _); [rewrite R; cbn [trace]; rewrite !Q0; auto|].
  destruct (Rendezvous.cli s) as [cli|]; [destruct (MatrixClient.crypto cli)|];
    rewrite R; cbn [trace]; rewrite ?Q, ?Q0; auto.
Qed.

(** [crossSign] past its two guards, with a client that has crypto: the
    first lookup, and when it finds nothing the sleep and the second
    lookup. *)
Lemma run_crossSign_lookup W (env : Env W) s w timeout reported cli :
  truthy (Rendezvous.newDeviceId s) = true ->
  Rendezvous.newDeviceKeys s = Some reported ->
  reported <> [] ->
  Rendezvous.cli s = Some cli ->
  MatrixClient.crypto cli = true ->
  let ms := match timeout with Some ms => ms | None => (10 * 1000)%Z end in
  let lookup := getStoredDevice (MatrixClient.getUserId cli)
                  (Rendezvous.newDeviceId s) in
  run env (crossSign timeout) s w =
  match env _ lookup w with
  | (Threw e, w1) => mkRun (Threw e) s w1 [Called lookup (Threw e)]
  | (Returned (Some deviceInfo), w1) =>
      after [Called lookup (Returned (Some deviceInfo))]
            (map_run Some (run env (checkAndCrossSignDevice deviceInfo) s w1))
  | (Returned None, w1) =>
      match env _ (sleep ms) w1 with
      | (Threw e, w2) =>
          mkRun (Threw e) s w2
                [Called lookup (Returned None);
                 Logged "New device is not online";
                 Called (sleep ms) (Threw e)]
      | (Returned u, w2) =>
          let pre := [Called lookup (Returned None);
                      Logged "New device is not online";
                      Called (sleep ms) (Returned u);
                      Logged "Going to wait for new device to be online"] in
          match env _ lookup w2 with
          | (Threw e, w3) =>
              mkRun (Threw e) s w3 (pre ++ [Called lookup (Threw e)])
          | (Returned (Some deviceInfo), w3) =>
              after (pre ++ [Called lookup (Returned (Some deviceInfo))])
                    (map_run Some
                       (run env (checkAndCrossSignDevice deviceInfo) s w3))
          | (Returned None, w3) =>
              mkRun (Threw (Error "Device not online within timeout")) s w3
                    (pre ++ [Called lookup (Returned None)])
          end
      end
  end.
Proof.
  intros I K N C Y ms lookup. unfold crossSign, stored_device, this.
  cbn [run bind]. rewrite I, K, C, Y. cbn [negb].
  destruct reported as [|kv reported]; [congruence|].
  cbn [Object_values map length Nat.eqb bind run await]. fold lookup.
  destruct (env _ lookup w) as [[[deviceInfo|]|e] w1]; [| |reflexivity].
  - now rewrite run_bind_ret.
  - unfold logger_info. cbn [bind run]. fold ms.
    destruct (env _ (sleep ms) w1) as [[u|e] w2]; [|reflexivity].
    cbn [bind run]. fold lookup.
    destruct (env _ lookup w2) as [[[deviceInfo|]|e] w3]; [| |reflexivity].
    + rewrite run_bind_ret. unfold after. reflexivity.
    + reflexivity.
Qed.

Lemma run_crossSign_unset W (env : Env W) s w timeout :
  truthy (Rendezvous.newDeviceId s) = false ->
  run env (crossSign timeout) s w =
  mkRun (Threw (Error "No new device to sign")) s w [].
Proof.
  intros I. unfold crossSign, this. cbn [run bind]. now rewrite I.
Qed.

Lemma run_crossSign_nothing W (env : Env W) s w timeout :
  truthy (Rendezvous.newDeviceId s) = true ->
  Rendezvous.newDeviceKeys s = None \/ Rendezvous.newDeviceKeys s = Some [] ->
  run env (crossSign timeout) s w =
  mkRun (Returned None) s w [Logged "No new device keys to sign"].
Proof.
  intros I K. unfold crossSign, this. cbn [run bind]. rewrite I.
  destruct K as [-> | ->]; reflexivity.
Qed.


Lemma lookups_app (t1 t2 : list Entry) :
  lookups (t1 ++ t2) = (lookups t1 ++ lookups t2)%list.
Proof. apply collect_app. Qed.

Lemma sleeps_app (t1 t2 : list Entry) :
  sleeps (t1 ++ t2) = (sleeps t1 ++ sleeps t2)%list.
Proof. apply collect_app. Qed.





(** ** Payloads that lack a field *)

(** C4, as the code has it.  completeOnNewDevice fails at once on a received
    payload that is not a decline and lacks homeserver or login_token: it
    throws before any login, session install or send.
    confirmLoginOnExistingDevice tests the outcome only: a payload with
    outcome "success" and no deviceId is not rejected there; the call
    returns no device id without an error and records the absent id and the
    reported keys, and it is a later crossSign that throws "No new device to
    sign", before any capability call. *)
Theorem incomplete_payloads :
  forall W (env : Env W) (s : Rendezvous.t) (w : W) (p : Payload.t),
    (In (Returned (Some p)) (receives (trace (run env completeOnNewDevice s w))) ->
     Payload.outcome p <> Some "declined" ->
     truthy (Payload.homeserver p) = false
     \/ truthy (Payload.login_token p) = false ->
     (exists m, completion (run env completeOnNewDevice s w) = Threw (Error m))
     /\ logins (trace (run env completeOnNewDevice s w)) = []
     /\ installs (trace (run env completeOnNewDevice s w)) = []
     /\ sends (trace (run env completeOnNewDevice s w)) = [])
    /\
    (In (Returned (Some p))
        (receives (trace (run env confirmLoginOnExistingDevice s w))) ->
     Payload.outcome p = Some "success" ->
     Payload.deviceId p = None ->
     let r := run env confirmLoginOnExistingDevice s w in
     completion r = Returned None
     /\ Rendezvous.newDeviceId (session r) = None
     /\ Rendezvous.newDeviceKeys (session r) = Payload.deviceKeys p
     /\ forall W' (env' : Env W') (w' : W') timeout,
          run env' (crossSign timeout) (session r) w' =
          mkRun (Threw (Error "No new device to sign")) (session r) w' []).
Proof.
  intros W env s w p. split.
  - unfold completeOnNewDevice, surface_digits, cancel. walk.
    all: intros H; simpl in H; received_is; intros D M; guards;
      try solve [exfalso; intuition congruence].
    all: split; [eexists; reflexivity|repeat split].
  - intros H O D r.
    assert (A : completion r = Returned None
                /\ Rendezvous.newDeviceId (session r) = None
                /\ Rendezvous.newDeviceKeys (session r) = Payload.deviceKeys p).
    { revert H. subst r. unfold confirmLoginOnExistingDevice, this_cli. walk.
      all: intros H; simpl in H; received_is; guards; try congruence.
      all: rewrite D; repeat split. }
    destruct A as (A1 & A2 & A3). repeat split; try assumption.
    intros W' env' w' timeout. apply run_crossSign_unset. now rewrite A2.
Qed.

(** * Further properties *)

Lemma truthy_some x : truthy (Some x) = true <-> x <> "".
Proof.
  simpl. rewrite negb_true_iff. apply String.eqb_neq.
Qed.

(** The guards met on the way, once the fields of the payload are known. *)
Ltac fields :=
  simpl in *; guards;
  repeat match goal with
  | H : (_ =? _)%string = true |- _ => apply String.eqb_eq in H
  | H : (_ =? _)%string = false |- _ => apply String.eqb_neq in H
  end;
  try congruence.

(** Equations between answers, taken apart. *)
Ltac unpack :=
  repeat match goal with
  | H : _ \/ _ |- _ => destruct H as [H|H]
  | H : False |- _ => destruct H
  | H : In _ [] |- _ => destruct H
  | H : Some _ = Some _ |- _ => injection H; clear H; intros
  | H : Returned _ = Returned _ |- _ => injection H; clear H; intros
  | H : pair _ _ = pair _ _ |- _ => injection H; clear H; intros
  | H : cons _ _ = cons _ _ |- _ => injection H; clear H; intros
  | H : @Threw _ _ = Returned _ |- _ => discriminate H
  | H : Returned _ = @Threw _ _ |- _ => discriminate H
  | H : Some _ = None |- _ => discriminate H
  | H : None = Some _ |- _ => discriminate H
  end; subst.

(** ** The new device past the guards *)

(** X1.  A received payload that is not a decline and carries a homeserver
    and a login token makes completeOnNewDevice ask for exactly one login:
    at that homeserver, with no device id, by the token grant with that
    token.  It does not cancel, and it hands setLoggedIn what the login
    answered, and only that: nothing is installed when the login rejects. *)
Theorem completeOnNewDevice_login_exchange :
  forall W (env : Env W) (s : Rendezvous.t) (w : W) (p : Payload.t)
         (hs tok : string),
    let r := run env completeOnNewDevice s w in
    In (Returned (Some p)) (receives (trace r)) ->
    Payload.outcome p <> Some "declined" ->
    Payload.homeserver p = Some hs -> hs <> "" ->
    Payload.login_token p = Some tok -> tok <> "" ->
    logins (trace r) = [(hs, None, "m.login.token", tok)]
    /\ cancels (trace r) = []
    /\ installs (trace r) = resolved (login_answers (trace r)).
Proof.
  intros W env s w p hs tok r. subst r.
  unfold completeOnNewDevice, surface_digits, cancel. walk.
  all: intros H; simpl in H; received_is; intros D Hs Nh Tk Nt.
  all: rewrite ?Hs, ?Tk in *; fields.
  all: repeat split.
Qed.

(** X2.  Whatever completeOnNewDevice sends is one payload, sent after the
    credentials of the login were installed: outcome "success", the device
    id of those credentials, and for keys either nothing, when the client of
    the peg has no crypto (the stored devices are then not read), or what
    the stored devices of that user hold under that id: the keys of the
    stored device or, when the id is not stored and names a member every
    object inherits, the keys member of that, which is no device's keys. *)
Theorem completeOnNewDevice_report :
  forall W (env : Env W) (s : Rendezvous.t) (w : W) (q : Payload.t),
    let r := run env completeOnNewDevice s w in
    In q (sends (trace r)) ->
    exists login client deviceKeys,
      sends (trace r) = [q]
      /\ installs (trace r) = [login]
      /\ peg_clients (trace r) = [Returned (Some client)]
      /\ q = Payload.mk None None None (Some "success")
               (IMatrixClientCreds.deviceId login) deviceKeys
      /\ (MatrixClient.crypto client = false ->
          deviceKeys = None /\ raw_devices (trace r) = [])
      /\ (MatrixClient.crypto client = true ->
          exists devices,
            raw_devices (trace r)
            = [(IMatrixClientCreds.userId login, Returned devices)]
            /\ match raw_device devices (IMatrixClientCreds.deviceId login) with
               | Own device => deviceKeys = Some (DeviceInfo.keys device)
               | Inherited name => deviceKeys = inherited_keys name
               | Undefined => False
               end).
Proof.
  intros W env s w q r. subst r.
  unfold completeOnNewDevice, surface_digits, cancel. walk.
  all: intros H; simpl in H; received_is.
  all: do 3 eexists; repeat split; try reflexivity; intros; try congruence.
  all: eexists; split; [reflexivity|]; simpl.
  all: match goal with E : member _ _ = _ |- _ => rewrite E end.
  all: reflexivity.
Qed.

(** X3.  When the stored devices of the user are read and nothing is found
    under the device id of the new session (no devices at all, or neither a
    stored device nor an inherited member under that id),
    completeOnNewDevice throws "Unknown device user:device" and sends no
    report, although the credentials were already installed by then. *)
Theorem completeOnNewDevice_unknown_device :
  forall W (env : Env W) (s : Rendezvous.t) (w : W)
         (userId : string) (devices : option (JS.Record DeviceInfo.t)),
    let r := run env completeOnNewDevice s w in
    In (userId, Returned devices) (raw_devices (trace r)) ->
    exists login,
      installs (trace r) = [login]
      /\ userId = IMatrixClientCreds.userId login
      /\ (raw_device devices (IMatrixClientCreds.deviceId login) = Undefined ->
          completion r =
            Threw (Error ("Unknown device " ++ IMatrixClientCreds.userId login
                            ++ ":" ++ to_string (IMatrixClientCreds.deviceId login)))
          /\ sends (trace r) = []).
Proof.
  intros W env s w userId devices r. subst r.
  unfold completeOnNewDevice, surface_digits, cancel. walk.
  all: intros H; simpl in H; unpack.
  all: eexists; repeat split; try reflexivity; simpl in *; congruence.
Qed.

(** X4.  What the result of completeOnNewDevice tells its caller.  No
    result: nothing was received, or a decline was received and the cancel
    went through; in both cases no login was asked for, nothing installed,
    nothing sent.  Credentials: they are the ones the login answered and
    setLoggedIn installed, and the report naming their device id was sent
    and the send resolved. *)
Theorem completeOnNewDevice_result :
  forall W (env : Env W) (s : Rendezvous.t) (w : W),
    let r := run env completeOnNewDevice s w in
    (completion r = Returned None ->
     logins (trace r) = [] /\ installs (trace r) = [] /\ sends (trace r) = []
     /\ (receives (trace r) = [Returned None]
         \/ exists p, receives (trace r) = [Returned (Some p)]
                      /\ Payload.outcome p = Some "declined"
                      /\ cancels (trace r) = [(UserDeclined, Returned tt)]))
    /\
    (forall login, completion r = Returned (Some login) ->
       login_answers (trace r) = [Returned login]
       /\ installs (trace r) = [login]
       /\ exists q, send_answers (trace r) = [(q, Returned tt)]
                    /\ Payload.outcome q = Some "success"
                    /\ Payload.deviceId q = IMatrixClientCreds.deviceId login).
Proof.
  intros W env s w r. subst r.
  unfold completeOnNewDevice, surface_digits, cancel. walk.
  all: split; [intros H|intros login H]; try discriminate H; received_is; fields.
  all: repeat match goal with u : unit |- _ => destruct u end.
  all: repeat split; try solve [left; reflexivity].
  all: try solve [right; eexists; repeat split; assumption].
  all: eexists; repeat split.
Qed.

(** ** What one device sends, the other receives *)

(** completeOnNewDevice on a received payload, by the guards it passes. *)
Lemma completeOnNewDevice_received W (env : Env W) s w p :
  let r := run env completeOnNewDevice s w in
  In (Returned (Some p)) (receives (trace r)) ->
  session r = s
  /\ if strict_eq (Payload.outcome p) (Some "declined") then
       (exists c, cancels (trace r) = [(UserDeclined, c)]
                  /\ completion r =
                       match c with
                       | Returned _ => Returned None
                       | Threw e => Threw e
                       end)
       /\ logins (trace r) = [] /\ installs (trace r) = []
       /\ sends (trace r) = []
     else
       cancels (trace r) = []
       /\ if negb (truthy (Payload.homeserver p)) then
            completion r = Threw (Error "No homeserver returned")
            /\ logins (trace r) = [] /\ sends (trace r) = []
          else if negb (truthy (Payload.login_token p)) then
            completion r = Threw (Error "No login token returned")
            /\ logins (trace r) = [] /\ sends (trace r) = []
          else
            logins (trace r)
            = [(to_string (Payload.homeserver p), None, "m.login.token",
                to_string (Payload.login_token p))]
            /\ installs (trace r) = resolved (login_answers (trace r)).
Proof.
  intros r. subst r.
  unfold completeOnNewDevice, surface_digits, cancel. walk.
  all: intros H; simpl in H; unpack; guards; try congruence.
  all: repeat split; try (eexists; split; reflexivity).
Qed.

(** confirmLoginOnExistingDevice on a received payload. *)
Lemma confirmLoginOnExistingDevice_received W (env : Env W) s w p :
  let r := run env confirmLoginOnExistingDevice s w in
  In (Returned (Some p)) (receives (trace r)) ->
  if strict_eq (Payload.outcome p) (Some "success") then
    completion r = Returned (Payload.deviceId p)
    /\ session r =
         Rendezvous.set_newDeviceKeys (Payload.deviceKeys p)
           (Rendezvous.set_newDeviceId (Payload.deviceId p) s)
  else
    completion r = Threw (Error "Linking failed") /\ session r = s.
Proof.
  intros r. subst r.
  unfold confirmLoginOnExistingDevice, this_cli. walk.
  all: intros H; simpl in H; unpack; guards; try congruence.
  all: split; reflexivity.
Qed.

(** X5.  The decline travels: the one payload declineLoginOnExistingDevice
    sends, its only capability call, makes a completeOnNewDevice that
    receives it cancel once with UserDeclined and stop there, without login,
    install or send; it returns no result once the cancel went through. *)
Theorem decline_round_trip :
  forall W1 (env1 : Env W1) (s1 : Rendezvous.t) (w1 : W1)
         W2 (env2 : Env W2) (s2 : Rendezvous.t) (w2 : W2) (q : Payload.t),
    let r1 := run env1 declineLoginOnExistingDevice s1 w1 in
    let r2 := run env2 completeOnNewDevice s2 w2 in
    In q (sends (trace r1)) ->
    In (Returned (Some q)) (receives (trace r2)) ->
    sends (trace r1) = [q]
    /\ capability_calls (trace r1) = [tt]
    /\ session r1 = s1
    /\ exists c,
         cancels (trace r2) = [(UserDeclined, c)]
         /\ completion r2 =
              match c with Returned _ => Returned None | Threw e => Threw e end
         /\ logins (trace r2) = []
         /\ installs (trace r2) = []
         /\ sends (trace r2) = [].
Proof.
  intros W1 env1 s1 w1 W2 env2 s2 w2 q r1 r2 H1 H2.
  pose proof (@completeOnNewDevice_received _ env2 s2 w2 q H2) as R.
  fold r2 in R. clearbody r2. clear H2. revert H1. subst r1.
  unfold declineLoginOnExistingDevice. walk.
  all: intros H; simpl in H; unpack; simpl in R.
  all: destruct R as (_ & (c & C1 & C2) & L & I & S).
  all: repeat split; exists c; repeat split; assumption.
Qed.

(** X6.  The offer travels: the payload confirmLoginOnExistingDevice sends
    is never taken for a decline by a completeOnNewDevice that receives it,
    and it makes the new device log in at the base URL of the existing
    device's client with the token of the token request.  Only an empty
    base URL or an empty token stops it, with the error naming the field
    and before any login. *)
Theorem offer_round_trip :
  forall W1 (env1 : Env W1) (s1 : Rendezvous.t) (w1 : W1)
         W2 (env2 : Env W2) (s2 : Rendezvous.t) (w2 : W2) (q : Payload.t),
    let r1 := run env1 confirmLoginOnExistingDevice s1 w1 in
    let r2 := run env2 completeOnNewDevice s2 w2 in
    In q (sends (trace r1)) ->
    In (Returned (Some q)) (receives (trace r2)) ->
    exists cli token,
      Rendezvous.cli s1 = Some cli
      /\ token_requests (trace r1) = [Returned token]
      /\ cancels (trace r2) = []
      /\ (MatrixClient.baseUrl cli <> "" ->
          LoginToken.login_token token <> "" ->
          logins (trace r2)
          = [(MatrixClient.baseUrl cli, None, "m.login.token",
              LoginToken.login_token token)])
      /\ (MatrixClient.baseUrl cli = "" ->
          completion r2 = Threw (Error "No homeserver returned")
          /\ logins (trace r2) = [])
      /\ (MatrixClient.baseUrl cli <> "" ->
          LoginToken.login_token token = "" ->
          completion r2 = Threw (Error "No login token returned")
          /\ logins (trace r2) = []).
Proof.
  intros W1 env1 s1 w1 W2 env2 s2 w2 q r1 r2 H1 H2.
  pose proof (@completeOnNewDevice_received _ env2 s2 w2 q H2) as R.
  fold r2 in R. clearbody r2. clear H2. revert H1. subst r1.
  unfold confirmLoginOnExistingDevice, this_cli. walk.
  all: intros H; simpl in H; unpack; simpl in R.
  all: destruct R as (_ & C & R); do 2 eexists; split; [reflexivity|];
    split; [reflexivity|]; split; [exact C|].
  all: destruct (String.eqb_spec (MatrixClient.baseUrl t) "") as [B|B];
    simpl in R;
    [|destruct (String.eqb_spec (LoginToken.login_token x) "") as [T|T];
      simpl in R].
  all: repeat split; intros; try congruence; try apply R.
Qed.

(** X7.  The report travels: the payload completeOnNewDevice sends is
    accepted by a confirmLoginOnExistingDevice that receives it.  The
    existing device does not throw "Linking failed"; it returns the device
    id of the credentials the new device installed and remembers that id
    and the reported keys. *)
Theorem report_round_trip :
  forall W1 (env1 : Env W1) (s1 : Rendezvous.t) (w1 : W1)
         W2 (env2 : Env W2) (s2 : Rendezvous.t) (w2 : W2) (q : Payload.t),
    let r1 := run env1 completeOnNewDevice s1 w1 in
    let r2 := run env2 confirmLoginOnExistingDevice s2 w2 in
    In q (sends (trace r1)) ->
    In (Returned (Some q)) (receives (trace r2)) ->
    exists login,
      installs (trace r1) = [login]
      /\ completion r2 = Returned (IMatrixClientCreds.deviceId login)
      /\ Rendezvous.newDeviceId (session r2) = IMatrixClientCreds.deviceId login
      /\ Rendezvous.newDeviceKeys (session r2) = Payload.deviceKeys q.
Proof.
  intros W1 env1 s1 w1 W2 env2 s2 w2 q r1 r2 H1 H2.
  pose proof (@confirmLoginOnExistingDevice_received _ env2 s2 w2 q H2) as R.
  fold r2 in R. clearbody r2. clear H2. revert H1. subst r1.
  unfold completeOnNewDevice, surface_digits, cancel. walk.
  all: intros H; simpl in H; unpack; simpl in R.
  all: destruct R as (R1 & R2); rewrite R1, R2.
  all: eexists; repeat split.
Qed.

(** X8.  A new device without crypto is never cross-signed.  When the
    client of the peg has no crypto, the report carries no keys, the
    existing device that receives it remembers none, and a crossSign on that
    session makes no capability call at all: it returns nothing to sign (or
    throws "No new device to sign" when the report named no device). *)
Theorem no_crypto_no_cross_signing :
  forall W1 (env1 : Env W1) (s1 : Rendezvous.t) (w1 : W1)
         W2 (env2 : Env W2) (s2 : Rendezvous.t) (w2 : W2)
         W3 (env3 : Env W3) (w3 : W3) (timeout : option Z)
         (q : Payload.t) (client : MatrixClient.t),
    let r1 := run env1 completeOnNewDevice s1 w1 in
    let r2 := run env2 confirmLoginOnExistingDevice s2 w2 in
    let r3 := run env3 (crossSign timeout) (session r2) w3 in
    In (Returned (Some client)) (peg_clients (trace r1)) ->
    MatrixClient.crypto client = false ->
    In q (sends (trace r1)) ->
    In (Returned (Some q)) (receives (trace r2)) ->
    Payload.deviceKeys q = None
    /\ Rendezvous.newDeviceKeys (session r2) = None
    /\ capability_calls (trace r3) = []
    /\ (completion r3 = Returned None
        \/ completion r3 = Threw (Error "No new device to sign")).
Proof.
  intros W1 env1 s1 w1 W2 env2 s2 w2 W3 env3 w3 timeout q client r1 r2 r3
         P C H1 H2.
  pose proof (@confirmLoginOnExistingDevice_received _ env2 s2 w2 q H2) as R.
  fold r2 in R.
  assert (K : Payload.deviceKeys q = None
              /\ strict_eq (Payload.outcome q) (Some "success") = true).
  { clear R H2. revert P H1. subst r1.
    unfold completeOnNewDevice, surface_digits, cancel. walk.
    all: intros P H; simpl in P, H; unpack; try congruence.
    all: split; reflexivity. }
  destruct K as (K & O). rewrite O in R. destruct R as (_ & S).
  assert (N : Rendezvous.newDeviceKeys (session r2) = None)
    by (rewrite S; exact K).
  split; [exact K|]. split; [exact N|]. subst r3.
  destruct (truthy (Rendezvous.newDeviceId (session r2))) eqn:I.
  - rewrite (@run_crossSign_nothing _ env3 _ w3 timeout I (or_introl N)).
    split; [reflexivity|now left].
  - rewrite (@run_crossSign_unset _ env3 _ w3 timeout I).
    split; [reflexivity|now right].
Qed.

(** ** crossSign as a whole *)

Lemma verifications_app (t1 t2 : list Entry) :
  verifications (t1 ++ t2) = (verifications t1 ++ verifications t2)%list.
Proof. apply collect_app. Qed.

Lemma capability_calls_app (t1 t2 : list Entry) :
  capability_calls (t1 ++ t2) = (capability_calls t1 ++ capability_calls t2)%list.
Proof. apply collect_app. Qed.

(** How the key-match check ends: thrown before any capability call, or
    with its one call of setDeviceVerification, made on a full match. *)
Lemma checkAndCrossSignDevice_summary W (env : Env W) deviceInfo reported s w :
  Rendezvous.newDeviceKeys s = Some reported ->
  let r := run env (checkAndCrossSignDevice deviceInfo) s w in
  session r = s
  /\ ((verifications (trace r) = [] /\ capability_calls (trace r) = []
       /\ exists e, completion r = Threw e)
      \/ exists cli c,
           Rendezvous.cli s = Some cli /\ MatrixClient.crypto cli = true
           /\ length (DeviceInfo.keys deviceInfo) = length reported
           /\ find (differing (DeviceInfo.keys deviceInfo) reported)
                   (Object_keys reported) = None
           /\ verifications (trace r)
              = [(MatrixClient.getUserId cli, Rendezvous.newDeviceId s,
                  true, false, true, c)]
           /\ capability_calls (trace r) = [tt]
           /\ completion r = c).
Proof.
  intros K r.
  destruct (@run_checkAndCrossSignDevice _ env deviceInfo _ s w K) as [logs R].
  cbv zeta in R. fold r in R.
  assert (Q : forall B (f : Entry -> option B) t,
             (forall m, f (Logged m) = None) ->
             collect f (map Logged logs ++ t) = collect f t).
  { intros B f t q. now rewrite collect_app, collect_logged. }
  assert (Q0 : forall B (f : Entry -> option B),
             (forall m, f (Logged m) = None) ->
             collect f (map Logged logs) = []).
  { intros B f q. now apply collect_logged. }
  unfold verifications, capability_calls.
  destruct (Nat.eqb_spec (length (DeviceInfo.keys deviceInfo)) (length reported))
    as [L|L]; cbn [negb] in R.
  2:{ rewrite R. split; [reflexivity|]. left. repeat split. eexists; reflexivity. }
  destruct (find _ _) eqn:F.
  { rewrite R. cbn [trace completion session]. rewrite !Q0 by reflexivity.
    split; [reflexivity|]. left. repeat split. eexists; reflexivity. }
  destruct (Rendezvous.cli s) as [cli|] eqn:C.
  2:{ rewrite R. cbn [trace completion session]. rewrite !Q0 by reflexivity.
      split; [reflexivity|]. left. repeat split. eexists; reflexivity. }
  destruct (MatrixClient.crypto cli) eqn:Y.
  2:{ rewrite R. cbn [trace completion session]. rewrite !Q0 by reflexivity.
      split; [reflexivity|]. left. repeat split. eexists; reflexivity. }
  rewrite R. cbn [trace completion session]. rewrite !Q by reflexivity.
  split; [reflexivity|]. right. exists cli. eexists. repeat split; assumption.
Qed.

(** [crossSign] past its two guards with no client, or a client without
    crypto: a TypeError before any capability call. *)
Lemma run_crossSign_no_client W (env : Env W) s w timeout reported :
  truthy (Rendezvous.newDeviceId s) = true ->
  Rendezvous.newDeviceKeys s = Some reported ->
  reported <> [] ->
  (Rendezvous.cli s = None
   \/ exists cli, Rendezvous.cli s = Some cli /\ MatrixClient.crypto cli = false) ->
  exists member,
    run env (crossSign timeout) s w = mkRun (Threw (TypeError member)) s w [].
Proof.
  intros I K N C. unfold crossSign, stored_device, this.
  cbn [run bind]. rewrite I, K. cbn [negb].
  destruct reported as [|kv reported]; [congruence|].
  cbn [Object_values map length Nat.eqb].
  destruct C as [-> | (cli & -> & Y)]; [eexists; reflexivity|].
  rewrite Y. eexists; reflexivity.
Qed.

(** Every run of crossSign, summed up. *)
Lemma crossSign_summary W (env : Env W) s w timeout :
  let r := run env (crossSign timeout) s w in
  session r = s
  /\ length (capability_calls (trace r))
     = (length (lookups (trace r)) + length (sleeps (trace r))
        + length (verifications (trace r)))%nat
  /\ ((verifications (trace r) = []
       /\ forall v, completion r <> Returned (Some v))
      \/ exists reported cli deviceInfo c,
           Rendezvous.newDeviceKeys s = Some reported
           /\ Rendezvous.cli s = Some cli
           /\ In (Returned (Some deviceInfo)) (lookups (trace r))
           /\ length (DeviceInfo.keys deviceInfo) = length reported
           /\ find (differing (DeviceInfo.keys deviceInfo) reported)
                   (Object_keys reported) = None
           /\ verifications (trace r)
              = [(MatrixClient.getUserId cli, Rendezvous.newDeviceId s,
                  true, false, true, c)]
           /\ completion r = map_completion Some c)
  /\ (completion r = Returned None ->
      (Rendezvous.newDeviceKeys s = None \/ Rendezvous.newDeviceKeys s = Some [])
      /\ trace r = [Logged "No new device keys to sign"]).
Proof.
  intros r. subst r.
  destruct (truthy (Rendezvous.newDeviceId s)) eqn:I.
  2:{ rewrite (@run_crossSign_unset _ env s w timeout I). simpl.
      repeat split; try discriminate. left. split; [reflexivity|discriminate]. }
  destruct (Rendezvous.newDeviceKeys s) as [[|kv reported]|] eqn:K.
  1,3: rewrite (@run_crossSign_nothing _ env s w timeout I) by auto; simpl;
    repeat split; auto; left; split; [reflexivity|discriminate].
  assert (N : kv :: reported <> []) by discriminate.
  destruct (Rendezvous.cli s) as [cli|] eqn:C.
  2:{ destruct (@run_crossSign_no_client _ env s w timeout _ I K N) as [m ->];
        [now left|]. simpl.
      repeat split; try discriminate. left. split; [reflexivity|discriminate]. }
  destruct (MatrixClient.crypto cli) eqn:Y.
  2:{ destruct (@run_crossSign_no_client _ env s w timeout _ I K N) as [m ->];
        [right; eauto|]. simpl.
      repeat split; try discriminate. left. split; [reflexivity|discriminate]. }
  rewrite (@run_crossSign_lookup _ env s w timeout _ cli I K N C Y).
  assert (Q := fun deviceInfo w' =>
                 @checkAndCrossSignDevice_quiet _ env deviceInfo _ s w' K).
  assert (S := fun deviceInfo w' =>
                 @checkAndCrossSignDevice_summary _ env deviceInfo _ s w' K).
  cbv zeta in S.
  repeat match goal with
  | |- context [match env ?X ?c ?w with pair _ _ => _ end] =>
      destruct (env X c w) as [[[?|]|?] ?] || destruct (env X c w) as [[?|?] ?]
  end;
  unfold after, map_run; cbn [trace completion session];
  rewrite ?lookups_app, ?sleeps_app, ?verifications_app, ?capability_calls_app;
  rewrite ?(proj1 (Q _ _)), ?(proj1 (proj2 (Q _ _)));
  try match goal with
  | |- context [run env (checkAndCrossSignDevice ?d) s ?w'] =>
      destruct (S d w')
        as (-> & [(-> & -> & e & ->)|(cli' & c & C' & Y' & L & F & -> & -> & ->)])
  end;
  cbn [lookups sleeps verifications capability_calls collect looked_up slept
       verified capability_call app length map_completion Nat.add].
  all: try (assert (cli' = cli) by congruence; subst cli').
  all: split; [reflexivity|]; split; [reflexivity|]; split.
  all: try solve [left; split; [reflexivity|discriminate]].
  all: try solve [right; do 4 eexists; repeat split;
                  try eassumption; try reflexivity; simpl; auto].
  all: intros H; try discriminate H; destruct c; discriminate H.
Qed.


(** X9.  crossSign marks a device verified only on matching keys.  Every
    call of setDeviceVerification it makes is the only one of the run, is
    for the client's user and the remembered device id with the flags true,
    false, true, and comes after a lookup that found a device whose stored
    keys are as many as the remembered ones and agree with them on every
    remembered key id: the same map, key ids being distinct. *)
Theorem crossSign_verifies_only_matching_keys :
  forall W (env : Env W) (s : Rendezvous.t) (w : W) (timeout : option Z)
         (call : string * option string * bool * bool * bool
                 * Completion (VerificationRecord CrossSigningInfo)),
    let r := run env (crossSign timeout) s w in
    In call (verifications (trace r)) ->
    exists reported cli deviceInfo c,
      Rendezvous.newDeviceKeys s = Some reported
      /\ Rendezvous.cli s = Some cli
      /\ call = (MatrixClient.getUserId cli, Rendezvous.newDeviceId s,
                 true, false, true, c)
      /\ verifications (trace r) = [call]
      /\ In (Returned (Some deviceInfo)) (lookups (trace r))
      /\ length (DeviceInfo.keys deviceInfo) = length reported
      /\ (forall k, In k (Object_keys reported) ->
            get (DeviceInfo.keys deviceInfo) k = get reported k)
      /\ (NoDup (Object_keys reported) ->
          forall k, get (DeviceInfo.keys deviceInfo) k = get reported k).
Proof.
  intros W env s w timeout call r H.
  destruct (@crossSign_summary _ env s w timeout) as (_ & _ & V & _).
  fold r in V.
  destruct V as [(V & _)|(reported & cli & deviceInfo & c & K & C & L & E & F & V & _)].
  - rewrite V in H. destruct H.
  - rewrite V in H. destruct H as [<-|[]].
    pose proof (proj1 (@find_differing_none _ _ _) F) as A.
    exists reported, cli, deviceInfo, c. repeat split; try assumption.
    intros ND. now apply exact_match.
Qed.

(** X10.  What the result of crossSign tells its caller.  No result means
    that there was nothing to sign: newDeviceKeys absent or empty, and
    nothing done beyond a log line.  A record is the one that the single
    call of setDeviceVerification resolved with. *)
Theorem crossSign_result :
  forall W (env : Env W) (s : Rendezvous.t) (w : W) (timeout : option Z),
    let r := run env (crossSign timeout) s w in
    (completion r = Returned None ->
     (Rendezvous.newDeviceKeys s = None \/ Rendezvous.newDeviceKeys s = Some [])
     /\ trace r = [Logged "No new device keys to sign"])
    /\
    (forall record, completion r = Returned (Some record) ->
       exists cli,
         Rendezvous.cli s = Some cli
         /\ verifications (trace r)
            = [(MatrixClient.getUserId cli, Rendezvous.newDeviceId s,
                true, false, true, Returned record)]).
Proof.
  intros W env s w timeout r.
  destruct (@crossSign_summary _ env s w timeout) as (_ & _ & V & N).
  fold r in V, N. split; [exact N|].
  intros record H.
  destruct V as [(_ & V)|(reported & cli & deviceInfo & c & K & C & L & E & F & V & R)].
  - now apply V in H.
  - exists cli. split; [exact C|]. rewrite V. rewrite R in H.
    destruct c as [v|e]; simpl in H; [|discriminate]. congruence.
Qed.

(** X11.  crossSign works on the crypto store and the timer only: every
    capability call of a run is a getStoredDevice, a sleep or a
    setDeviceVerification, so it never touches the channel or the login,
    and it leaves the session as it found it. *)
Theorem crossSign_only_store_and_timer :
  forall W (env : Env W) (s : Rendezvous.t) (w : W) (timeout : option Z),
    let r := run env (crossSign timeout) s w in
    length (capability_calls (trace r))
    = (length (lookups (trace r)) + length (sleeps (trace r))
       + length (verifications (trace r)))%nat
    /\ (length (verifications (trace r)) <= 1)%nat
    /\ session r = s.
Proof.
  intros W env s w timeout r.
  destruct (@crossSign_summary _ env s w timeout) as (S & L & V & _).
  fold r in S, L, V. split; [exact L|]. split; [|exact S].
  destruct V as [(-> & _)|(? & ? & ? & ? & _ & _ & _ & _ & _ & -> & _)];
    simpl; lia.
Qed.

(** X12.  Which methods write the session.  The new-device role, start and
    decline on the existing device and crossSign leave every field as it
    was; confirmLoginOnExistingDevice can change newDeviceId and
    newDeviceKeys only, generateCode the code only. *)
Theorem session_frame :
  forall W (env : Env W) (s : Rendezvous.t) (w : W) (timeout : option Z),
    session (run env completeOnNewDevice s w) = s
    /\ session (run env startOnExistingDevice s w) = s
    /\ session (run env declineLoginOnExistingDevice s w) = s
    /\ session (run env (crossSign timeout) s w) = s
    /\ (let s' := session (run env confirmLoginOnExistingDevice s w) in
        Rendezvous.cli s' = Rendezvous.cli s
        /\ Rendezvous.user s' = Rendezvous.user s
        /\ Rendezvous.code s' = Rendezvous.code s
        /\ Rendezvous.onConfirmationDigits s' = Rendezvous.onConfirmationDigits s
        /\ Rendezvous.onCancelled s' = Rendezvous.onCancelled s)
    /\ (let s' := session (run env generateCode s w) in
        Rendezvous.cli s' = Rendezvous.cli s
        /\ Rendezvous.user s' = Rendezvous.user s
        /\ Rendezvous.newDeviceId s' = Rendezvous.newDeviceId s
        /\ Rendezvous.newDeviceKeys s' = Rendezvous.newDeviceKeys s
        /\ Rendezvous.onConfirmationDigits s' = Rendezvous.onConfirmationDigits s
        /\ Rendezvous.onCancelled s' = Rendezvous.onCancelled s).
Proof.
  intros W env s w timeout.
  split; [|split; [|split; [|split; [|split]]]].
  - unfold completeOnNewDevice, surface_digits, cancel. walk. all: reflexivity.
  - unfold startOnExistingDevice, surface_digits. walk. all: reflexivity.
  - unfold declineLoginOnExistingDevice. walk. all: reflexivity.
  - exact (proj1 (@crossSign_summary _ env s w timeout)).
  - unfold confirmLoginOnExistingDevice, this_cli. walk.
    all: cbv zeta; simpl; repeat split; congruence.
  - unfold generateCode. walk. all: cbv zeta; simpl; repeat split; congruence.
Qed.

(** X13.  generateCode in a session without a code (none, or the empty
    string, which the guard treats alike) asks the channel exactly once.  If
    the channel answers, the code becomes the JSON text of the answer; if
    it rejects, the rejection is the outcome and no code is stored, so a
    later call asks again. *)
Theorem generateCode_fresh :
  forall W (env : Env W) (s : Rendezvous.t) (w : W),
    let r := run env generateCode s w in
    truthy (Rendezvous.code s) = false ->
    exists answer,
      generations (trace r) = [answer]
      /\ capability_calls (trace r) = [tt]
      /\ match answer with
         | Returned c =>
             completion r = Returned tt
             /\ Rendezvous.code (session r) = Some (JSON_stringify c)
         | Threw e =>
             completion r = Threw e /\ session r = s
             /\ generations
                  (trace (run env generateCode (session r) (world r))) <> []
         end.
Proof.
  intros W env s w r F. subst r. unfold generateCode. simpl.
  rewrite F. simpl.
  destruct (env _ channel_generateCode w) as [[c|e] w'] eqn:E; simpl.
  - eexists. repeat split.
  - eexists. repeat split. rewrite F. simpl.
    destruct (env _ channel_generateCode w') as [[c'|e'] w'']; simpl; discriminate.
Qed.


(** ** The key-match check, once more *)

(** Two objects that are the same map have as many keys. *)
Lemma same_map_same_size (stored reported : JS.Record string) :
  NoDup (Object_keys stored) -> NoDup (Object_keys reported) ->
  (forall k, get stored k = get reported k) ->
  length stored = length reported.
Proof.
  intros NS NR A.
  assert (I1 : incl (Object_keys stored) (Object_keys reported)).
  { intros k I. destruct (@get_in _ _ _ I) as [v G].
    apply get_some_in with v. now rewrite <- A. }
  assert (I2 : incl (Object_keys reported) (Object_keys stored)).
  { intros k I. destruct (@get_in _ _ _ I) as [v G].
    apply get_some_in with v. now rewrite A. }
  pose proof (NoDup_incl_length NS I1) as L1.
  pose proof (NoDup_incl_length NR I2) as L2.
  unfold Object_keys in L1, L2. rewrite !length_map in L1, L2. lia.
Qed.

(** X14.  The key-match check accepts exactly the same map.  For a stored
    and a remembered object with distinct key ids each, and a client with
    crypto, checkAndCrossSignDevice reaches setDeviceVerification if and
    only if the two objects hold the same value under every key id; the
    order of the keys in either object plays no part. *)
Theorem key_match_iff_same_map :
  forall W (env : Env W) (s : Rendezvous.t) (w : W)
         (deviceInfo : DeviceInfo.t) (reported : JS.Record string)
         (cli : MatrixClient.t),
    Rendezvous.newDeviceKeys s = Some reported ->
    Rendezvous.cli s = Some cli -> MatrixClient.crypto cli = true ->
    NoDup (Object_keys (DeviceInfo.keys deviceInfo)) ->
    NoDup (Object_keys reported) ->
    let r := run env (checkAndCrossSignDevice deviceInfo) s w in
    verifications (trace r) <> []
    <-> (forall k, get (DeviceInfo.keys deviceInfo) k = get reported k).
Proof.
  intros W env s w deviceInfo reported cli K C Y NS NR r.
  destruct (@run_checkAndCrossSignDevice _ env deviceInfo _ s w K) as [logs R].
  cbv zeta in R. fold r in R. rewrite C, Y in R.
  assert (Q0 : verifications (map (@Logged RendezvousCode CrossSigningInfo) logs) = []).
  { unfold verifications. now apply collect_logged. }
  destruct (Nat.eqb_spec (length (DeviceInfo.keys deviceInfo)) (length reported))
    as [L|L]; cbn [negb] in R.
  - destruct (find _ _) as [keyId|] eqn:F.
    + rewrite R. cbn [trace]. rewrite Q0.
      split; [intros H; exfalso; apply H; reflexivity|].
      intros A. exfalso.
      destruct (find_some _ _ F) as [I D]. apply differing_true in D. apply D, A.
    + rewrite R. cbn [trace]. rewrite verifications_app, Q0. simpl.
      split; [|discriminate]. intros _.
      apply exact_match; [exact NR|exact L|].
      exact (proj1 (@find_differing_none _ _ _) F).
  - rewrite R. cbn [trace]. split; [intros H; exfalso; apply H; reflexivity|].
    intros A. exfalso. apply L. now apply same_map_same_size.
Qed.

(** ** A session without a client *)

(** X16.  On a session built without a client, as the new device builds
    it, or with a client that has no crypto, the methods of the existing
    device fail with a TypeError before any capability call:
    confirmLoginOnExistingDevice without a client, crossSign (once a device
    id and keys are remembered) without a client or without crypto.  The
    session is left as it was. *)
Theorem no_client_no_call :
  forall W (env : Env W) (s : Rendezvous.t) (w : W) (timeout : option Z),
    (Rendezvous.cli s = None ->
     exists member,
       completion (run env confirmLoginOnExistingDevice s w)
       = Threw (TypeError member)
       /\ capability_calls (trace (run env confirmLoginOnExistingDevice s w)) = []
       /\ session (run env confirmLoginOnExistingDevice s w) = s)
    /\
    (forall reported,
       truthy (Rendezvous.newDeviceId s) = true ->
       Rendezvous.newDeviceKeys s = Some reported -> reported <> [] ->
       Rendezvous.cli s = None
       \/ (exists cli, Rendezvous.cli s = Some cli
                       /\ MatrixClient.crypto cli = false) ->
       exists member,
         run env (crossSign timeout) s w
         = mkRun (Threw (TypeError member)) s w []).
Proof.
  intros W env s w timeout. split.
  - intros C. unfold confirmLoginOnExistingDevice, this_cli. simpl.
    rewrite C. simpl. eexists. repeat split.
  - intros reported I K N C. now apply run_crossSign_no_client with reported.
Qed.

(** ** Connecting *)

(** X17.  completeOnNewDevice and startOnExistingDevice begin alike: the
    first thing either does is connect, once; the digits of the connect go
    to the onConfirmationDigits observer exactly when one is set, and to
    nothing else.  startOnExistingDevice then exchanges no payload and can
    only return true. *)
Theorem connect_surfaces_digits :
  forall W (env : Env W) (s : Rendezvous.t) (w : W),
    (exists a,
       hd_error (trace (run env completeOnNewDevice s w))
       = Some (Called channel_connect a)
       /\ connects (trace (run env completeOnNewDevice s w)) = [a]
       /\ surfaced (trace (run env completeOnNewDevice s w))
          = match a with
            | Returned digits =>
                if Rendezvous.onConfirmationDigits s then [digits] else []
            | Threw _ => []
            end)
    /\
    (exists a,
       hd_error (trace (run env startOnExistingDevice s w))
       = Some (Called channel_connect a)
       /\ connects (trace (run env startOnExistingDevice s w)) = [a]
       /\ surfaced (trace (run env startOnExistingDevice s w))
          = match a with
            | Returned digits =>
                if Rendezvous.onConfirmationDigits s then [digits] else []
            | Threw _ => []
            end)
    /\ sends (trace (run env startOnExistingDevice s w)) = []
    /\ receives (trace (run env startOnExistingDevice s w)) = []
    /\ (forall b, completion (run env startOnExistingDevice s w) = Returned b ->
          b = true).
Proof.
  intros W env s w. split; [|split; [|split; [|split]]].
  - unfold completeOnNewDevice, surface_digits, cancel. simpl.
    destruct (env _ channel_connect w) as [[d|e] w0]; simpl;
      [|eexists; repeat split].
    destruct (Rendezvous.onConfirmationDigits s); walk.
    all: eexists; repeat split.
  - unfold startOnExistingDevice, surface_digits. simpl.
    destruct (env _ channel_connect w) as [[d|e] w0]; simpl;
      [|eexists; repeat split].
    destruct (Rendezvous.onConfirmationDigits s); walk.
    all: eexists; repeat split.
  - unfold startOnExistingDevice, surface_digits. walk. all: reflexivity.
  - unfold startOnExistingDevice, surface_digits. walk. all: reflexivity.
  - unfold startOnExistingDevice, surface_digits. walk.
    all: intros b H; congruence.
Qed.


(** * The login helper *)

Section LoginHelper.

Variable ElementHandle : Type.
Variable mxLogDir : option string.

Local Abbreviation LoginEnv := (Login.Env ElementHandle).

(** One step of a run of the helper: an answer of the page, a promise that
    settles, a branch. *)
Ltac page_step :=
  first
    [ step
    | match goal with
      | x : Completion unit |- _ => destruct x as [[]|?]; simpl
      end ].

Ltac page_walk := simpl; repeat page_step.

(** X18.  Every text the helper types goes into the element it found for
    that text: the homeserver, typed only when it is not empty, into the
    one found under .mx_ServerPickerDialog_otherHomeserver, the username
    into the one under #mx_LoginForm_username, the password into the one
    under #mx_LoginForm_password; and it types them in this order. *)
Theorem login_types_into_the_fields_it_found :
  forall W (env : LoginEnv W) (w : W) (username password homeserver : string)
         (handle : ElementHandle) (text : string),
    let r := Login.run env (Login.login mxLogDir username password homeserver) w in
    In (handle, text) (Login.typed (Login.trace r)) ->
    (exists selector,
       In (selector, Returned handle) (Login.queried (Login.trace r))
       /\ ((selector = ".mx_ServerPickerDialog_otherHomeserver"
            /\ text = homeserver /\ homeserver <> "")
           \/ (selector = "#mx_LoginForm_username" /\ text = username)
           \/ (selector = "#mx_LoginForm_password" /\ text = password)))
    /\ exists rest,
         (map snd (Login.typed (Login.trace r)) ++ rest)%list
         = if truthy (Some homeserver)
           then [homeserver; username; password]
           else [username; password].
Proof.
  intros W env w username password homeserver handle text r. subst r.
  unfold Login.login, Login.screenshot, Login.assert_strictEqual_null,
    Login.assert_ok. page_walk.
  all: intros H; simpl in H; unpack; fields.
  all: split; [eexists; split; [simpl; eauto 10|]; simpl; auto 6|].
  all: eexists; reflexivity.
Qed.

(** X19.  The helper queries the page in a fixed order: with a homeserver to
    set, the three elements of the server picker and then the three of the
    login form; with an empty homeserver the three of the form only, so the
    server picker is never touched, and of all the clicks only the one on
    the login button can remain. *)
Theorem login_queries_in_order :
  forall W (env : LoginEnv W) (w : W) (username password homeserver : string),
    let r := Login.run env (Login.login mxLogDir username password homeserver) w in
    (exists rest,
       (map fst (Login.queried (Login.trace r)) ++ rest)%list
       = if truthy (Some homeserver)
         then (Login.picker_selectors ++ Login.form_selectors)%list
         else Login.form_selectors)
    /\ (homeserver = "" ->
        (forall selector answer,
           In (selector, answer) (Login.queried (Login.trace r)) ->
           In selector Login.form_selectors)
        /\ (length (Login.clicked (Login.trace r)) <= 1)%nat).
Proof.
  intros W env w username password homeserver r. subst r.
  unfold Login.login, Login.screenshot, Login.assert_strictEqual_null,
    Login.assert_ok. page_walk.
  all: split; try solve [eexists; reflexivity].
  all: intros E; fields.
  all: split; try solve [simpl; lia].
  all: intros selector answer H; simpl in H; unpack; simpl; auto 6.
Qed.

(** X20.  The helper submits the form only when the page shows no login
    error.  If an error text is found it fails with the AssertionError that
    carries the text: the login button is not clicked (the only clicks are
    the two of the server picker, if the homeserver was set) and nothing is
    polled. *)
Theorem login_does_not_submit_on_error :
  forall W (env : LoginEnv W) (w : W) (username password homeserver : string)
         (text : string),
    let r := Login.run env (Login.login mxLogDir username password homeserver) w in
    In (Returned (Some text)) (Login.error_texts (Login.trace r)) ->
    Login.outcome r = Login.Failed (Login.AssertionError_strictEqual text)
    /\ length (Login.clicked (Login.trace r))
       = (if truthy (Some homeserver) then 2 else 0)%nat
    /\ Login.polled (Login.trace r) = [].
Proof.
  intros W env w username password homeserver text r. subst r.
  unfold Login.login, Login.screenshot, Login.assert_strictEqual_null,
    Login.assert_ok. page_walk.
  all: intros H; simpl in H; unpack.
  all: repeat split.
Qed.

(** X21.  The helper resolves only after the whole script went through and
    the poll answered true: all six (or three) elements were found, the
    credentials typed, no error text shown, the login button clicked, and
    the poll, handed the callback that compares the page's URL with the
    session's /#/home, found the home page.  A poll that answers false makes
    it fail with the AssertionError of assert(foundHomeUrl). *)
Theorem login_resolves_only_at_home :
  forall W (env : LoginEnv W) (w : W) (username password homeserver : string),
    let r := Login.run env (Login.login mxLogDir username password homeserver) w in
    (Login.outcome r = Login.Resolved tt ->
     In (Login.Called (Login.session_poll Login.at_home) (Returned true))
        (Login.trace r)
     /\ Login.polled (Login.trace r) = [Returned true]
     /\ Login.error_texts (Login.trace r) = [Returned None]
     /\ map fst (Login.queried (Login.trace r))
        = (if truthy (Some homeserver)
           then (Login.picker_selectors ++ Login.form_selectors)%list
           else Login.form_selectors)
     /\ map snd (Login.typed (Login.trace r))
        = (if truthy (Some homeserver)
           then [homeserver; username; password]
           else [username; password])
     /\ length (Login.clicked (Login.trace r))
        = (if truthy (Some homeserver) then 3 else 1)%nat)
    /\
    (In (Returned false) (Login.polled (Login.trace r)) ->
     Login.outcome r = Login.Failed Login.AssertionError_ok).
Proof.
  intros W env w username password homeserver r. subst r.
  unfold Login.login, Login.screenshot, Login.assert_strictEqual_null,
    Login.assert_ok. page_walk.
  all: split; intros H; try discriminate H; simpl in H; unpack;
    try discriminate; try reflexivity.
  all: repeat split; simpl; auto 40.
Qed.

(** X22.  Whenever the helper navigates, it goes to the session's URL of
    /#/login, and the wait for the navigation was started before that, as
    the first call of all.  The promise of that wait is awaited only after
    goto resolved: if it rejects, the helper fails with the rejection and
    does nothing more; if goto itself rejects, the helper fails with that
    and the promise is never awaited. *)
Theorem login_navigates_after_starting_the_wait :
  forall W (env : LoginEnv W) (w : W) (username password homeserver : string)
         (target : string) (c : Completion unit),
    let r := Login.run env (Login.login mxLogDir username password homeserver) w in
    In (target, c) (Login.gotos (Login.trace r)) ->
    exists promise rest,
      Login.trace r
      = Login.Logged (Login.startGroup "logs in")
          :: Login.Logged (Login.step "Navigates to login page")
          :: Login.Called Login.page_waitForNavigation (Returned promise)
          :: Login.Called (Login.session_url "/#/login") (Returned target)
          :: Login.Called (Login.session_goto target) c
          :: rest
      /\ Login.gotos (Login.trace r) = [(target, c)]
      /\ (forall e, c = Threw e ->
            Login.outcome r = Login.Failed (Login.Rejected e) /\ rest = [])
      /\ (forall e, c = Returned tt -> promise = Threw e ->
            Login.outcome r = Login.Failed (Login.Rejected e) /\ rest = []).
Proof.
  intros W env w username password homeserver target c r. subst r.
  unfold Login.login, Login.screenshot, Login.assert_strictEqual_null,
    Login.assert_ok. page_walk.
  all: intros H; simpl in H; unpack.
  all: do 2 eexists; split; [reflexivity|]; split; [reflexivity|].
  all: split; intros; try discriminate; try congruence; split; congruence.
Qed.

(** X23.  The log of the helper.  It opens the group "logs in" first; every
    step it closes with done was announced before, so the done lines never
    outnumber the step lines, and they are as many once the helper
    resolved.  The group is closed exactly when the helper resolves: on any
    failure the log is left with the group open. *)
Theorem login_closes_the_log_group_only_on_success :
  forall W (env : LoginEnv W) (w : W) (username password homeserver : string),
    let r := Login.run env (Login.login mxLogDir username password homeserver) w in
    let lines := Login.logged (Login.trace r) in
    hd_error lines = Some (Login.startGroup "logs in")
    /\ (In Login.endGroup lines <-> Login.outcome r = Login.Resolved tt)
    /\ (length (filter Login.is_done lines)
        <= length (filter Login.is_step lines)
        <= S (length (filter Login.is_done lines)))%nat
    /\ (Login.outcome r = Login.Resolved tt ->
        length (filter Login.is_step lines)
        = (if truthy (Some homeserver) then 6 else 3)%nat
        /\ length (filter Login.is_done lines)
           = length (filter Login.is_step lines)).
Proof.
  intros W env w username password homeserver r lines. subst lines r.
  unfold Login.login, Login.screenshot, Login.assert_strictEqual_null,
    Login.assert_ok. page_walk.
  all: split; [reflexivity|]; split;
    [split; intros H; simpl in H; unpack; try discriminate; simpl; auto 20|].
  all: split; [simpl; lia|].
  all: intros H; try discriminate H; split; reflexivity.
Qed.

End LoginHelper.

End Properties.


(** The happy path of the new device (spec, section 8): the report sent back
    carries the outcome, the device id and the stored keys. *)
Example new_device_happy_path :
  let r := run env completeOnNewDevice fresh (mk [Some offer] []) in
  sends (trace r) = [keys_report]
  /\ completion r =
       Returned (Some (IMatrixClientCreds.mk "https://example.org" alice
                         (Some "DEV1") "secret")).
Proof. split; reflexivity. Qed.

(** The mismatch scenario (spec, section 8). *)
Example mismatch_names_the_key :
  completion
    (run env (crossSign None)
       (Rendezvous.set_newDeviceKeys (Some [("ed25519", "B")]) linked)
       (mk [] [Some (DeviceInfo.mk [("ed25519", "A")])]))
  = Threw (Error "New device has different keys than expected for ed25519").
Proof. reflexivity. Qed.

(** The device shows up during the wait: one sleep of the default timeout,
    two lookups, and the verification record. *)
Example cross_sign_after_one_wait :
  let r := run env (crossSign None) linked (mk [] [None; Some DEV1]) in
  completion r = Returned (Some (OfDevice DEV1))
  /\ sleeps (trace r) = [(10000%Z, Returned tt)]
  /\ lookup_args (trace r) = [(alice, Some "DEV1"); (alice, Some "DEV1")]
  /\ verifications (trace r)
     = [(alice, Some "DEV1", true, false, true, Returned (OfDevice DEV1))].
Proof. repeat split. Qed.

(** The device never shows up. *)
Example cross_sign_times_out :
  let r := run env (crossSign (Some 250%Z)) linked world0 in
  completion r = Threw (Error "Device not online within timeout")
  /\ sleeps (trace r) = [(250%Z, Returned tt)]
  /\ length (lookups (trace r)) = 2%nat.
Proof. repeat split. Qed.

(** The decline of the existing device (spec, section 8). *)
Example decline_sends_one_payload :
  trace (run env declineLoginOnExistingDevice existing world0)
  = [Logged "User declined linking";
     Called (channel_send declined) (Returned tt)].
Proof. reflexivity. Qed.

Example count_mismatch_names_the_counts :
  completion
    (run env (crossSign None)
       (Rendezvous.set_newDeviceKeys (Some [("a", "1"); ("b", "2")]) linked)
       (mk [] [Some (DeviceInfo.mk [("a", "1")])]))
  = Threw (Error "New device has different keys than expected: 1 vs 2").
Proof. reflexivity. Qed.

(** ** The theorems at work *)

Lemma generateCode_idempotent_witness :
  let s := Rendezvous.set_code (Some "{}") fresh in
  truthy (Rendezvous.code s) = true
  /\ run env (generateCode stringify) s world0 = mkRun (Returned tt) s world0 []
  /\ let r1 := run env (generateCode stringify) fresh world0 in
     Rendezvous.code (session r1) = Some "{}"
     /\ run env (generateCode stringify) (session r1) (world r1)
        = mkRun (Returned tt) (session r1) (world r1) [].
Proof.
  intros s. split; [reflexivity|]. split.
  - apply (proj1 (generateCode_idempotent stringify env s world0)). reflexivity.
  - split; [reflexivity|].
    apply (proj2 (generateCode_idempotent stringify env fresh world0));
      [intros c; discriminate | reflexivity].
Defined.

Lemma checkAndCrossSignDevice_key_match_witness :
  Rendezvous.newDeviceKeys linked = Some keys_DEV1
  /\ exists c,
       verifications (trace (run env (checkAndCrossSignDevice DEV1) linked world0))
       = [(alice, Some "DEV1", true, false, true, c)]
       /\ completion (run env (checkAndCrossSignDevice DEV1) linked world0) = c.
Proof.
  split; [reflexivity|].
  destruct (checkAndCrossSignDevice_key_match env linked world0 DEV1
              (reported := keys_DEV1) eq_refl) as (_ & _ & H & _).
  refine (H eq_refl _ (MatrixClient.mk alice "https://example.org" true)
            eq_refl eq_refl).
  intros k _. reflexivity.
Defined.


Lemma completeOnNewDevice_missing_field_witness :
  let p := Payload.mk None None (Some "tok1") None None None in
  let r := run env completeOnNewDevice fresh (mk [Some p] []) in
  In (Returned (Some p)) (receives (trace r))
  /\ completion r = Threw (Error "No homeserver returned")
  /\ logins (trace r) = []
  /\ session r = fresh.
Proof.
  intros p r. split; [left; reflexivity|].
  apply (completeOnNewDevice_missing_field env fresh (mk [Some p] []) p).
  - left. reflexivity.
  - discriminate.
  - left. reflexivity.
Defined.

Lemma completeOnNewDevice_declined_witness :
  let r := run env completeOnNewDevice fresh (mk [Some declined] []) in
  In (Returned (Some declined)) (receives (trace r))
  /\ exists c : Completion unit,
       cancels (trace r) = [(UserDeclined, c)]
       /\ completion r =
            match c with Returned _ => Returned None | Threw e => Threw e end
       /\ logins (trace r) = []
       /\ installs (trace r) = []
       /\ sends (trace r) = []
       /\ session r = fresh.
Proof.
  intros r. split; [left; reflexivity|].
  apply (completeOnNewDevice_declined env fresh (mk [Some declined] []) declined).
  - left. reflexivity.
  - reflexivity.
Defined.

(** C5, against the code: a decline is received and the transport fails to
    cancel.  completeOnNewDevice does not return no result; it ends in the
    error the cancel rejected with. *)
Lemma declined_with_failing_cancel_is_an_error :
  let r := run Variations.env_cancel_rejects completeOnNewDevice fresh
             (mk [Some declined] []) in
  receives (trace r) = [Returned (Some declined)]
  /\ Payload.outcome declined = Some "declined"
  /\ cancels (trace r) = [(UserDeclined, Threw (Error "transport closed"))]
  /\ completion r = Threw (Error "transport closed")
  /\ completion r <> Returned None.
Proof.
  intros r. repeat split; discriminate.
Qed.

Lemma receive_nothing_is_no_result_witness :
  (In (Returned None) (receives (trace (run env completeOnNewDevice fresh world0)))
   /\ completion (run env completeOnNewDevice fresh world0) = Returned None)
  /\
  (In (Returned None)
      (receives (trace (run env confirmLoginOnExistingDevice existing world0)))
   /\ completion (run env confirmLoginOnExistingDevice existing world0)
      = Returned None).
Proof.
  split; (split; [left; reflexivity|]).
  - apply (proj1 (receive_nothing_is_no_result env fresh world0)).
    left; reflexivity.
  - apply (proj2 (receive_nothing_is_no_result env existing world0)).
    left; reflexivity.
Defined.

Lemma confirmLoginOnExistingDevice_outcomes_witness :
  let r := run env confirmLoginOnExistingDevice existing (mk [Some keys_report] []) in
  In (Returned (Some keys_report)) (receives (trace r))
  /\ Payload.outcome keys_report = Some "success"
  /\ completion r = Returned (Some "DEV1")
  /\ session r = linked.
Proof.
  intros r. split; [left; reflexivity|]. split; [reflexivity|].
  destruct (confirmLoginOnExistingDevice_outcomes env existing
              (mk [Some keys_report] [])) as (_ & _ & H & _).
  apply (H keys_report); [left; reflexivity | reflexivity].
Defined.

Lemma confirmLoginOnExistingDevice_atomic_witness :
  let r := run env confirmLoginOnExistingDevice existing (mk [Some declined] []) in
  receives (trace r) = [Returned (Some declined)]
  /\ completion r = Threw (Error "Linking failed")
  /\ session r = existing
  /\ Rendezvous.newDeviceId (session r) = Rendezvous.newDeviceId existing
  /\ Rendezvous.newDeviceKeys (session r) = Rendezvous.newDeviceKeys existing
  /\ forall d, completion r <> Returned (Some d).
Proof.
  intros r. split; [reflexivity|]. split; [reflexivity|].
  apply (confirmLoginOnExistingDevice_atomic env existing (mk [Some declined] [])).
  intros p [H|[]]. injection H as <-. discriminate.
Defined.

Lemma confirmLoginOnExistingDevice_offer_witness :
  let r := run env confirmLoginOnExistingDevice existing world0 in
  In offer (sends (trace r))
  /\ sends (trace r) = [offer]
  /\ exists cli token,
       Rendezvous.cli existing = Some cli
       /\ token_requests (trace r) = [Returned token]
       /\ offer = Payload.mk (Some (MatrixClient.getUserId cli))
                    (Some (MatrixClient.baseUrl cli))
                    (Some (LoginToken.login_token token)) None None None.
Proof.
  intros r. split; [left; reflexivity|].
  apply (confirmLoginOnExistingDevice_offer env existing world0 offer).
  left. reflexivity.
Defined.

(** C6, against the code: the payload sent is the offer without any
    outcome field; no "offer" discriminant is written. *)
Lemma offer_carries_no_outcome :
  let r := run env confirmLoginOnExistingDevice existing world0 in
  sends (trace r) =
    [Payload.mk (Some "@alice:example.org") (Some "https://example.org")
                (Some "tok1") None None None]
  /\ forall p, In p (sends (trace r)) ->
       Payload.outcome p = None /\ Payload.outcome p <> Some "offer".
Proof.
  intros r. split; [reflexivity|].
  intros p [<-|[]]. split; [reflexivity|discriminate].
Qed.

Lemma incomplete_payloads_witness :
  let r := run env confirmLoginOnExistingDevice existing
             (mk [Some success_without_deviceId] []) in
  In (Returned (Some success_without_deviceId)) (receives (trace r))
  /\ completion r = Returned None
  /\ Rendezvous.newDeviceId (session r) = None
  /\ Rendezvous.newDeviceKeys (session r) = Some keys_DEV1
  /\ forall W' (env' : Env unit unit W') (w' : W') timeout,
       run env' (crossSign timeout) (session r) w' =
       mkRun (Threw (Error "No new device to sign")) (session r) w' [].
Proof.
  intros r. split; [left; reflexivity|].
  apply (proj2 (incomplete_payloads env existing
                  (mk [Some success_without_deviceId] [])
                  success_without_deviceId));
    [left; reflexivity | reflexivity | reflexivity].
Defined.

(** C4, against the code: a payload with outcome "success" and no deviceId
    passes confirmLoginOnExistingDevice.  Nothing is thrown; the call
    returns, and the reported keys are recorded in the session. *)
Lemma success_without_deviceId_is_not_rejected :
  let r := run env confirmLoginOnExistingDevice existing
             (mk [Some success_without_deviceId] []) in
  receives (trace r) = [Returned (Some success_without_deviceId)]
  /\ Payload.outcome success_without_deviceId = Some "success"
  /\ Payload.deviceId success_without_deviceId = None
  /\ completion r = Returned None
  /\ (forall e, completion r <> Threw e)
  /\ Rendezvous.newDeviceKeys (session r) = Some keys_DEV1
  /\ session r <> existing.
Proof.
  intros r. repeat split; discriminate.
Qed.

(** A device id that names an inherited member passes the guard of line
    102 although no such device is stored: the report goes out without
    keys, and the credentials are returned. *)
Example inherited_device_id_is_reported_without_keys :
  let r := run (Variations.env_inherited_device_id "toString")
             completeOnNewDevice fresh (mk [Some offer] []) in
  raw_devices (trace r) = [(alice, Returned (Some [("DEV1", DEV1)]))]
  /\ sends (trace r)
     = [Payload.mk None None None (Some "success") (Some "toString") None]
  /\ completion r
     = Returned (Some (IMatrixClientCreds.mk "https://example.org" alice
                         (Some "toString") "secret")).
Proof.
  intros r. repeat split.
Qed.

(** ** The further properties at work *)

Import Variations.

Lemma completeOnNewDevice_login_exchange_witness :
  let r := run env completeOnNewDevice fresh (mk [Some offer] []) in
  In (Returned (Some offer)) (receives (trace r))
  /\ logins (trace r) = [("https://example.org", None, "m.login.token", "tok1")]
  /\ cancels (trace r) = []
  /\ installs (trace r) = resolved (login_answers (trace r)).
Proof.
  intros r. split; [left; reflexivity|].
  apply (completeOnNewDevice_login_exchange env fresh (mk [Some offer] []) offer
           (hs := "https://example.org") (tok := "tok1")).
  - left. reflexivity.
  - discriminate.
  - reflexivity.
  - discriminate.
  - reflexivity.
  - discriminate.
Defined.

Lemma completeOnNewDevice_report_witness :
  let r := run env completeOnNewDevice fresh (mk [Some offer] []) in
  In keys_report (sends (trace r))
  /\ exists login client deviceKeys,
       sends (trace r) = [keys_report]
       /\ installs (trace r) = [login]
       /\ peg_clients (trace r) = [Returned (Some client)]
       /\ keys_report = Payload.mk None None None (Some "success")
                          (IMatrixClientCreds.deviceId login) deviceKeys
       /\ (MatrixClient.crypto client = false ->
           deviceKeys = None /\ raw_devices (trace r) = [])
       /\ (MatrixClient.crypto client = true ->
           exists devices,
             raw_devices (trace r)
             = [(IMatrixClientCreds.userId login, Returned devices)]
             /\ match raw_device devices (IMatrixClientCreds.deviceId login) with
                | Own device => deviceKeys = Some (DeviceInfo.keys device)
                | Inherited name => deviceKeys = inherited_keys name
                | Undefined => False
                end).
Proof.
  intros r. split; [left; reflexivity|].
  apply (completeOnNewDevice_report env fresh (mk [Some offer] []) keys_report).
  left. reflexivity.
Defined.

Lemma completeOnNewDevice_unknown_device_witness :
  let r := run env_without_device completeOnNewDevice fresh (mk [Some offer] []) in
  In (alice, Returned (Some [])) (raw_devices (trace r))
  /\ completion r = Threw (Error "Unknown device @alice:example.org:DEV1")
  /\ sends (trace r) = []
  /\ length (installs (trace r)) = 1%nat.
Proof.
  intros r.
  destruct (completeOnNewDevice_unknown_device env_without_device fresh
              (mk [Some offer] []) alice (Some []))
    as (login & I & U & H); [left; reflexivity|].
  split; [left; reflexivity|].
  injection I as <-.
  destruct (H eq_refl) as (C & S).
  split; [exact C|]. split; [exact S|]. reflexivity.
Defined.

Lemma completeOnNewDevice_result_witness :
  let r := run env completeOnNewDevice fresh (mk [Some declined] []) in
  completion r = Returned None
  /\ logins (trace r) = [] /\ installs (trace r) = [] /\ sends (trace r) = []
  /\ (receives (trace r) = [Returned None]
      \/ exists p, receives (trace r) = [Returned (Some p)]
                   /\ Payload.outcome p = Some "declined"
                   /\ cancels (trace r) = [(UserDeclined, Returned tt)]).
Proof.
  intros r. split; [reflexivity|].
  apply (proj1 (completeOnNewDevice_result env fresh (mk [Some declined] []))).
  reflexivity.
Defined.

Lemma decline_round_trip_witness :
  let r1 := run env declineLoginOnExistingDevice existing world0 in
  let r2 := run env completeOnNewDevice fresh (mk [Some declined] []) in
  In declined (sends (trace r1))
  /\ In (Returned (Some declined)) (receives (trace r2))
  /\ sends (trace r1) = [declined]
  /\ capability_calls (trace r1) = [tt]
  /\ session r1 = existing
  /\ exists c,
       cancels (trace r2) = [(UserDeclined, c)]
       /\ completion r2 =
            match c with Returned _ => Returned None | Threw e => Threw e end
       /\ logins (trace r2) = []
       /\ installs (trace r2) = []
       /\ sends (trace r2) = [].
Proof.
  intros r1 r2. split; [left; reflexivity|]. split; [left; reflexivity|].
  apply (decline_round_trip env existing world0 env fresh
           (mk [Some declined] []) declined); left; reflexivity.
Defined.

Lemma offer_round_trip_witness :
  let r1 := run env confirmLoginOnExistingDevice existing world0 in
  let r2 := run env completeOnNewDevice fresh (mk [Some offer] []) in
  In offer (sends (trace r1))
  /\ In (Returned (Some offer)) (receives (trace r2))
  /\ logins (trace r2) = [("https://example.org", None, "m.login.token", "tok1")].
Proof.
  intros r1 r2. split; [left; reflexivity|]. split; [left; reflexivity|].
  destruct (offer_round_trip env existing world0 env fresh
              (mk [Some offer] []) offer)
    as (cli & token & C & T & _ & H & _); [left; reflexivity|left; reflexivity|].
  injection C as <-. injection T as <-.
  apply H; discriminate.
Defined.

Lemma report_round_trip_witness :
  let r1 := run env completeOnNewDevice fresh (mk [Some offer] []) in
  let r2 := run env confirmLoginOnExistingDevice existing (mk [Some keys_report] []) in
  In keys_report (sends (trace r1))
  /\ In (Returned (Some keys_report)) (receives (trace r2))
  /\ exists login,
       installs (trace r1) = [login]
       /\ completion r2 = Returned (IMatrixClientCreds.deviceId login)
       /\ Rendezvous.newDeviceId (session r2) = IMatrixClientCreds.deviceId login
       /\ Rendezvous.newDeviceKeys (session r2) = Payload.deviceKeys keys_report.
Proof.
  intros r1 r2. split; [left; reflexivity|]. split; [left; reflexivity|].
  apply (report_round_trip env fresh (mk [Some offer] []) env existing
           (mk [Some keys_report] []) keys_report); left; reflexivity.
Defined.

Lemma no_crypto_no_cross_signing_witness :
  let q := Payload.mk None None None (Some "success") (Some "DEV1") None in
  let r1 := run env_without_crypto completeOnNewDevice fresh (mk [Some offer] []) in
  let r2 := run env confirmLoginOnExistingDevice existing (mk [Some q] []) in
  let r3 := run env (crossSign None) (session r2) world0 in
  In q (sends (trace r1))
  /\ In (Returned (Some q)) (receives (trace r2))
  /\ Payload.deviceKeys q = None
  /\ Rendezvous.newDeviceKeys (session r2) = None
  /\ capability_calls (trace r3) = []
  /\ (completion r3 = Returned None
      \/ completion r3 = Threw (Error "No new device to sign")).
Proof.
  intros q r1 r2 r3. split; [left; reflexivity|]. split; [left; reflexivity|].
  apply (no_crypto_no_cross_signing env_without_crypto fresh (mk [Some offer] [])
           env existing (mk [Some q] []) env world0 None q
           (MatrixClient.mk alice "https://example.org" false)).
  - left. reflexivity.
  - reflexivity.
  - left. reflexivity.
  - left. reflexivity.
Defined.

Lemma crossSign_verifies_only_matching_keys_witness :
  let r := run env (crossSign None) linked (mk [] [Some DEV1]) in
  let call := (alice, Some "DEV1", true, false, true, Returned (OfDevice DEV1)) in
  In call (verifications (trace r))
  /\ exists reported cli deviceInfo c,
       Rendezvous.newDeviceKeys linked = Some reported
       /\ Rendezvous.cli linked = Some cli
       /\ call = (MatrixClient.getUserId cli, Rendezvous.newDeviceId linked,
                  true, false, true, c)
       /\ verifications (trace r) = [call]
       /\ In (Returned (Some deviceInfo)) (lookups (trace r))
       /\ length (DeviceInfo.keys deviceInfo) = length reported
       /\ (forall k, In k (Object_keys reported) ->
             get (DeviceInfo.keys deviceInfo) k = get reported k)
       /\ (NoDup (Object_keys reported) ->
           forall k, get (DeviceInfo.keys deviceInfo) k = get reported k).
Proof.
  intros r call. split; [left; reflexivity|].
  apply (crossSign_verifies_only_matching_keys env linked (mk [] [Some DEV1]) None call).
  left. reflexivity.
Defined.

Lemma crossSign_result_witness :
  let r := run env (crossSign None) linked (mk [] [Some DEV1]) in
  completion r = Returned (Some (OfDevice DEV1))
  /\ exists cli,
       Rendezvous.cli linked = Some cli
       /\ verifications (trace r)
          = [(MatrixClient.getUserId cli, Rendezvous.newDeviceId linked,
              true, false, true, Returned (OfDevice DEV1))].
Proof.
  intros r. split; [reflexivity|].
  apply (proj2 (crossSign_result env linked (mk [] [Some DEV1]) None)).
  reflexivity.
Defined.

Lemma generateCode_fresh_witness :
  let r := run env_without_code (generateCode stringify) fresh world0 in
  truthy (Rendezvous.code fresh) = false
  /\ exists answer,
       generations (trace r) = [answer]
       /\ capability_calls (trace r) = [tt]
       /\ match answer with
          | Returned c =>
              completion r = Returned tt
              /\ Rendezvous.code (session r) = Some (stringify c)
          | Threw e =>
              completion r = Threw e /\ session r = fresh
              /\ generations
                   (trace (run env_without_code (generateCode stringify)
                             (session r) (world r))) <> []
          end.
Proof.
  intros r. split; [reflexivity|].
  apply (generateCode_fresh stringify env_without_code fresh world0). reflexivity.
Defined.

Lemma key_match_iff_same_map_witness :
  let stored := DeviceInfo.mk [("curve25519:DEV1", "C1"); ("ed25519:DEV1", "K1")] in
  let reported := [("ed25519:DEV1", "K1"); ("curve25519:DEV1", "C1")] in
  let s := Rendezvous.set_newDeviceKeys (Some reported) linked in
  Rendezvous.newDeviceKeys s = Some reported
  /\ (verifications (trace (run env (checkAndCrossSignDevice stored) s world0)) <> []
      <-> (forall k, get (DeviceInfo.keys stored) k = get reported k)).
Proof.
  intros stored reported s. split; [reflexivity|].
  apply (key_match_iff_same_map env s world0 stored (reported := reported)
           (cli := MatrixClient.mk alice "https://example.org" true)).
  - reflexivity.
  - reflexivity.
  - reflexivity.
  - repeat constructor; simpl; intuition discriminate.
  - repeat constructor; simpl; intuition discriminate.
Defined.

Lemma no_client_no_call_witness :
  Rendezvous.cli fresh = None
  /\ exists member,
       completion (run env confirmLoginOnExistingDevice fresh world0)
       = Threw (TypeError member)
       /\ capability_calls (trace (run env confirmLoginOnExistingDevice fresh world0)) = []
       /\ session (run env confirmLoginOnExistingDevice fresh world0) = fresh.
Proof.
  split; [reflexivity|].
  apply (proj1 (no_client_no_call env fresh world0 None)). reflexivity.
Defined.

Lemma connect_surfaces_digits_witness :
  completion (run env startOnExistingDevice existing world0) = Returned true
  /\ true = true.
Proof.
  split; [reflexivity|].
  apply (proj2 (proj2 (proj2 (proj2
           (connect_surfaces_digits env existing world0))))).
  reflexivity.
Defined.

Lemma login_types_into_the_fields_it_found_witness :
  let r := Login.run ScriptedPage.env
             (Login.login None "alice" "secret" "https://hs.example")
             (ScriptedPage.mk None true) in
  In ("#mx_LoginForm_password", "secret") (Login.typed (Login.trace r))
  /\ (exists selector,
        In (selector, Returned "#mx_LoginForm_password")
           (Login.queried (Login.trace r))
        /\ ((selector = ".mx_ServerPickerDialog_otherHomeserver"
             /\ "secret" = "https://hs.example" /\ "https://hs.example" <> "")
            \/ (selector = "#mx_LoginForm_username" /\ "secret" = "alice")
            \/ (selector = "#mx_LoginForm_password" /\ "secret" = "secret")))
  /\ exists rest,
       (map snd (Login.typed (Login.trace r)) ++ rest)%list
       = ["https://hs.example"; "alice"; "secret"].
Proof.
  intros r. split; [right; right; left; reflexivity|].
  apply (login_types_into_the_fields_it_found None
           ScriptedPage.env (ScriptedPage.mk None true)
           "alice" "secret" "https://hs.example"
           "#mx_LoginForm_password" "secret").
  right. right. left. reflexivity.
Defined.

Lemma login_queries_in_order_witness :
  let r := Login.run ScriptedPage.env (Login.login None "alice" "secret" "")
             (ScriptedPage.mk None true) in
  (forall selector answer,
     In (selector, answer) (Login.queried (Login.trace r)) ->
     In selector Login.form_selectors)
  /\ (length (Login.clicked (Login.trace r)) <= 1)%nat.
Proof.
  intros r.
  apply (proj2 (login_queries_in_order None ScriptedPage.env
                  (ScriptedPage.mk None true) "alice" "secret" "")).
  reflexivity.
Defined.

Lemma login_does_not_submit_on_error_witness :
  let r := Login.run ScriptedPage.env
             (Login.login None "alice" "wrong" "https://hs.example")
             (ScriptedPage.mk (Some "Invalid password") true) in
  In (Returned (Some "Invalid password")) (Login.error_texts (Login.trace r))
  /\ Login.outcome r
     = Login.Failed (Login.AssertionError_strictEqual "Invalid password")
  /\ length (Login.clicked (Login.trace r)) = 2%nat
  /\ Login.polled (Login.trace r) = [].
Proof.
  intros r. split; [left; reflexivity|].
  apply (login_does_not_submit_on_error None ScriptedPage.env
           (ScriptedPage.mk (Some "Invalid password") true)
           "alice" "wrong" "https://hs.example").
  left. reflexivity.
Defined.

Lemma login_resolves_only_at_home_witness :
  let r := Login.run ScriptedPage.env
             (Login.login None "alice" "secret" "https://hs.example")
             (ScriptedPage.mk None true) in
  Login.outcome r = Login.Resolved tt
  /\ Login.polled (Login.trace r) = [Returned true]
  /\ Login.error_texts (Login.trace r) = [Returned None]
  /\ map snd (Login.typed (Login.trace r))
     = ["https://hs.example"; "alice"; "secret"].
Proof.
  intros r. split; [reflexivity|].
  destruct (proj1 (login_resolves_only_at_home None ScriptedPage.env
                     (ScriptedPage.mk None true)
                     "alice" "secret" "https://hs.example") eq_refl)
    as (_ & P & E & _ & T & _).
  split; [exact P|]. split; [exact E|]. exact T.
Defined.

Lemma login_navigates_after_starting_the_wait_witness :
  let r := Login.run ScriptedPage.env
             (Login.login None "alice" "secret" "https://hs.example")
             (ScriptedPage.mk None true) in
  In ("http://localhost/#/login", Returned tt) (Login.gotos (Login.trace r))
  /\ Login.gotos (Login.trace r) = [("http://localhost/#/login", Returned tt)].
Proof.
  intros r. split; [left; reflexivity|].
  destruct (login_navigates_after_starting_the_wait None ScriptedPage.env
              (ScriptedPage.mk None true) "alice" "secret" "https://hs.example"
              "http://localhost/#/login" (Returned tt))
    as (promise & rest & _ & G & _); [left; reflexivity|].
  exact G.
Defined.

Lemma login_closes_the_log_group_only_on_success_witness :
  let r := Login.run ScriptedPage.env
             (Login.login None "alice" "secret" "https://hs.example")
             (ScriptedPage.mk None true) in
  Login.outcome r = Login.Resolved tt
  /\ length (filter Login.is_step (Login.logged (Login.trace r))) = 6%nat
  /\ length (filter Login.is_done (Login.logged (Login.trace r)))
     = length (filter Login.is_step (Login.logged (Login.trace r))).
Proof.
  intros r. split; [reflexivity|].
  apply (proj2 (proj2 (proj2
           (login_closes_the_log_group_only_on_success None ScriptedPage.env
              (ScriptedPage.mk None true) "alice" "secret" "https://hs.example")))).
  reflexivity.
Defined.
